(** * Question extraction and storage services (Project4, Project5, Project8)

    A shallow embedding of the regex-configuration helpers
    ([compile_pattern], [load_regex_config], [compile_regex_from_config]),
    of the two-level block extractor [parse_questions_with_config], and of
    the polymorphic question repository with its request handler
    [create_question].

    Python values are modelled as follows.
    - [str] is [string]; the case mapping and the whitespace test are the
      ASCII ones, so the model speaks about ASCII text.
    - [dict] is a [gmap] with string keys; [None] inside a dictionary is
      an inner [option].
    - Exceptions are the [Raise] branch of [outcome]; [HTTPException]
      keeps its status code and detail message.
    - The [re] module, the file system, the JSON decoder and the SQL
      session are collaborators: they are taken as interfaces, and a small
      reference regex engine is supplied to run the definitions. *)

From Stdlib Require Import ZArith Ascii String.
From stdpp Require Import base option list list_monad gmap strings fin_maps
  pretty.

Local Open Scope string_scope.
Local Open Scope Z_scope.

(** ** Exceptions and outcomes *)

(** One entry of a request-validation report: the field and what was
    wrong with it. *)
Inductive verror : Type :=
| missing (field : string)
| too_short (field : string)
| not_positive (field : string)
| wrong_literal (field expected : string)
| value_error (field msg : string).

Inductive exn : Type :=
| HTTPException (status_code : Z) (detail : string)
| RequestValidationError (errors : list verror)
| re_error (msg : string)
| ValueError (msg : string)
| AttributeError (msg : string)
| StorageError (msg : string).

Definition str_of_exn (e : exn) : string :=
  match e with
  | HTTPException _ msg | re_error msg | ValueError msg
  | AttributeError msg | StorageError msg => msg
  | RequestValidationError _ => "validation error"
  end.

Inductive outcome (A : Type) : Type :=
| Ok (a : A)
| Raise (e : exn).

Arguments Ok {A} a.
Arguments Raise {A} e.

#[global] Instance outcome_ret : MRet outcome := fun A a => Ok a.
#[global] Instance outcome_bind : MBind outcome :=
  fun A B f m => match m with Ok a => f a | Raise e => Raise e end.

Definition is_ok {A} (o : outcome A) : bool :=
  match o with Ok _ => true | Raise _ => false end.

(** ** Strings: [str.upper], [str.strip], slicing *)

Module Str.

Definition upper_char (c : ascii) : ascii :=
  let n := nat_of_ascii c in
  if ((97 <=? n) && (n <=? 122))%nat then ascii_of_nat (n - 32) else c.

Fixpoint upper (s : string) : string :=
  match s with
  | EmptyString => EmptyString
  | String c s' => String (upper_char c) (upper s')
  end.

(** [str.isspace] on ASCII: TAB..CR, FS..US and the space. *)
Definition isspace (c : ascii) : bool :=
  let n := nat_of_ascii c in
  (((9 <=? n) && (n <=? 13)) || ((28 <=? n) && (n <=? 32)))%nat.

Fixpoint lstrip (s : string) : string :=
  match s with
  | EmptyString => EmptyString
  | String c s' => if isspace c then lstrip s' else s
  end.

Fixpoint rstrip (s : string) : string :=
  match s with
  | EmptyString => EmptyString
  | String c s' =>
      match rstrip s' with
      | EmptyString => if isspace c then EmptyString else String c EmptyString
      | r => String c r
      end
  end.

Definition strip (s : string) : string := rstrip (lstrip s).

(** Truthiness of a string: [if s:] holds for the non-empty ones. *)
Definition truthy (s : string) : bool :=
  match s with EmptyString => false | String _ _ => true end.

(** [s[a:b]] for non-negative indices; out-of-range bounds are clamped. *)
Definition slice (s : string) (a b : nat) : string := substring a (b - a) s.

(** [f] occurs in [s] as a contiguous run of characters. *)
Definition occurs_in (f s : string) : Prop :=
  exists pre suf, s = pre +:+ f +:+ suf.

End Str.

(** ** The [re] module as an interface

    A compiled pattern scans a string and reports, per match, the span of
    the whole match and, for every named group the pattern declares, the
    span of the group or nothing when the group took no part. *)

Record raw_match : Type := RawMatch {
  m_start : nat;
  m_end : nat;
  m_named : list (string * option (nat * nat))
}.

Class ReEngine : Type := {
  Pattern : Type;
  re_compile : string -> Z -> outcome Pattern;
  re_scan : Pattern -> string -> list raw_match
}.

(** A match object remembers the scanned string, as [Match.string]. *)
Record Match : Type := MkMatch {
  m_string : string;
  m_raw : raw_match
}.

Definition group0 (m : Match) : string :=
  Str.slice (m_string m) (m_start (m_raw m)) (m_end (m_raw m)).

Definition span_text (s : string) (sp : nat * nat) : string :=
  Str.slice s (fst sp) (snd sp).

Definition groupdict (m : Match) : gmap string (option string) :=
  list_to_map
    (map (fun kv => (fst kv, span_text (m_string m) <$> snd kv))
         (m_named (m_raw m))).

Definition finditer `{ReEngine} (p : Pattern) (s : string) : list Match :=
  map (MkMatch s) (re_scan p s).

(** The block both loaders wrap around [re.compile]: an [re.error]
    becomes a 400 response, anything else passes through. *)
Definition try_re_compile `{ReEngine} (pattern : string) (flags_val : Z)
    : outcome Pattern :=
  match re_compile pattern flags_val with
  | Raise (re_error exc) =>
      Raise (HTTPException 400 ("Invalid regex: " +:+ exc))
  | r => r
  end.

(** [re] flag constants. *)
Module re.
Definition IGNORECASE : Z := 2.
Definition MULTILINE : Z := 8.
Definition DOTALL : Z := 16.
Definition UNICODE : Z := 32.
Definition VERBOSE : Z := 64.
Definition ASCII : Z := 256.
End re.

(** ** A reference engine

    A backtracking matcher for a fragment of the [re] syntax: literals,
    [.], [$], character sets and the escapes [\d \s \w], alternation,
    groups (plain, named, non-capturing), positive lookahead and the
    quantifiers [* + ?] with their lazy forms.  Alternatives are tried
    left to right and the first success wins, as in [re]; a pattern
    outside the fragment is reported as [re_error]. *)

Module RefRe.

Inductive regex : Type :=
| REmpty
| RChar (c : ascii)
| RAny
| RSet (negate : bool) (ranges : list (ascii * ascii))
| RSeq (r1 r2 : regex)
| RAlt (r1 r2 : regex)
| RStar (greedy : bool) (r : regex)
| RGroup (name : option string) (r : regex)
| RLookahead (r : regex)
| REnd.

Definition caps : Type := list (string * (nat * nat)).

Definition newline : ascii := ascii_of_nat 10.

Definition lower_char (c : ascii) : ascii :=
  let n := nat_of_ascii c in
  if ((65 <=? n) && (n <=? 90))%nat then ascii_of_nat (n + 32) else c.

Definition in_ranges (rs : list (ascii * ascii)) (c : ascii) : bool :=
  existsb (fun r => (nat_of_ascii (fst r) <=? nat_of_ascii c)%nat
                    && (nat_of_ascii c <=? nat_of_ascii (snd r))%nat) rs.

Definition char_eq (fl : Z) (c d : ascii) : bool :=
  if Z.testbit fl 1 then Ascii.eqb (Str.upper_char c) (Str.upper_char d)
  else Ascii.eqb c d.

Definition set_mem (fl : Z) (rs : list (ascii * ascii)) (c : ascii) : bool :=
  in_ranges rs c
  || (Z.testbit fl 1
      && (in_ranges rs (Str.upper_char c) || in_ranges rs (lower_char c))).

Definition at_end (fl : Z) (s : string) : bool :=
  match s with
  | EmptyString => true
  | String c EmptyString => Ascii.eqb c newline
  | String c _ => Z.testbit fl 3 && Ascii.eqb c newline
  end.

Fixpoint rmatch (fl : Z) (r : regex) (s : string) (pos : nat) (cs : caps)
    (k : string -> nat -> caps -> option (nat * caps)) {struct r}
    : option (nat * caps) :=
  match r with
  | REmpty => k s pos cs
  | RChar c =>
      match s with
      | String d s' => if char_eq fl c d then k s' (S pos) cs else None
      | EmptyString => None
      end
  | RAny =>
      match s with
      | String d s' =>
          if Z.testbit fl 4 || negb (Ascii.eqb d newline)
          then k s' (S pos) cs else None
      | EmptyString => None
      end
  | RSet neg rs =>
      match s with
      | String d s' =>
          if xorb neg (set_mem fl rs d) then k s' (S pos) cs else None
      | EmptyString => None
      end
  | RSeq r1 r2 =>
      rmatch fl r1 s pos cs (fun s' p' cs' => rmatch fl r2 s' p' cs' k)
  | RAlt r1 r2 =>
      match rmatch fl r1 s pos cs k with
      | Some x => Some x
      | None => rmatch fl r2 s pos cs k
      end
  | RStar greedy r1 =>
      (fix loop (fuel : nat) (s : string) (pos : nat) (cs : caps)
         : option (nat * caps) :=
         match fuel with
         | O => k s pos cs
         | S fuel' =>
             let again :=
               rmatch fl r1 s pos cs
                 (fun s' p' cs' =>
                    if (p' =? pos)%nat then None else loop fuel' s' p' cs') in
             if greedy
             then match again with Some x => Some x | None => k s pos cs end
             else match k s pos cs with Some x => Some x | None => again end
         end) (S (String.length s)) s pos cs
  | RGroup name r1 =>
      rmatch fl r1 s pos cs
        (fun s' p' cs' =>
           k s' p' (match name with
                    | Some n => (n, (pos, p')) :: cs'
                    | None => cs'
                    end))
  | RLookahead r1 =>
      match rmatch fl r1 s pos cs (fun _ p' cs' => Some (p', cs')) with
      | Some (_, cs') => k s pos cs'
      | None => None
      end
  | REnd => if at_end fl s then k s pos cs else None
  end.

Fixpoint names (r : regex) : list string :=
  match r with
  | RSeq r1 r2 | RAlt r1 r2 => names r1 ++ names r2
  | RStar _ r1 | RLookahead r1 => names r1
  | RGroup (Some n) r1 => n :: names r1
  | RGroup None r1 => names r1
  | _ => []
  end.

Fixpoint cap_lookup (n : string) (cs : caps) : option (nat * nat) :=
  match cs with
  | [] => None
  | (k, sp) :: cs' => if String.eqb k n then Some sp else cap_lookup n cs'
  end.

(** The leftmost match starting at [pos] or later; after an empty match
    the scanner retries the same position and refuses an empty match
    there. *)
Fixpoint try_from (fl : Z) (r : regex) (text : string) (left : nat)
    (pos : nat) (must_advance : bool) : option (nat * nat * caps) :=
  match rmatch fl r (Str.slice text pos (String.length text)) pos []
          (fun _ e cs =>
             if must_advance && (e =? pos)%nat then None else Some (e, cs))
  with
  | Some (e, cs) => Some (pos, e, cs)
  | None =>
      match left with
      | O => None
      | S left' => try_from fl r text left' (S pos) false
      end
  end.

Fixpoint scan_loop (fl : Z) (r : regex) (text : string) (fuel : nat)
    (pos : nat) (must_advance : bool) : list raw_match :=
  match fuel with
  | O => []
  | S fuel' =>
      match try_from fl r text (String.length text - pos) pos must_advance with
      | None => []
      | Some (st, e, cs) =>
          RawMatch st e (map (fun n => (n, cap_lookup n cs))
                             (remove_dups (names r)))
          :: scan_loop fl r text fuel' e (e =? st)%nat
      end
  end.

Definition scan (p : Z * regex) (text : string) : list raw_match :=
  scan_loop (fst p) (snd p) text (2 * String.length text + 2) 0%nat false.

(** *** Reading a pattern *)

Definition chr (n : nat) : ascii := ascii_of_nat n.

Definition is_chr (n : nat) (c : ascii) : bool := (nat_of_ascii c =? n)%nat.

Definition digit_set : list (ascii * ascii) := [(chr 48, chr 57)].
Definition space_set : list (ascii * ascii) := [(chr 9, chr 13); (chr 28, chr 32)].
Definition word_set : list (ascii * ascii) :=
  [(chr 97, chr 122); (chr 65, chr 90); (chr 48, chr 57); (chr 95, chr 95)].

Definition is_alnum (c : ascii) : bool := in_ranges word_set c && negb (is_chr 95 c).

(** The escape [\c]. *)
Definition parse_escape (c : ascii) : option regex :=
  if is_chr 100 c then Some (RSet false digit_set)
  else if is_chr 68 c then Some (RSet true digit_set)
  else if is_chr 115 c then Some (RSet false space_set)
  else if is_chr 83 c then Some (RSet true space_set)
  else if is_chr 119 c then Some (RSet false word_set)
  else if is_chr 87 c then Some (RSet true word_set)
  else if is_chr 110 c then Some (RChar newline)
  else if is_chr 116 c then Some (RChar (chr 9))
  else if is_alnum c then None
  else Some (RChar c).

(** The items of a set up to the closing bracket. *)
Fixpoint parse_set_items (s : string) (acc : list (ascii * ascii))
    : option (list (ascii * ascii) * string) :=
  match s with
  | EmptyString => None
  | String c s1 =>
      if is_chr 93 c then Some (acc, s1)
      else if is_chr 92 c then None
      else match s1 with
           | String d (String e s2) =>
               if is_chr 45 d && negb (is_chr 93 e)
               then parse_set_items s2 (acc ++ [(c, e)])
               else parse_set_items s1 (acc ++ [(c, c)])
           | _ => parse_set_items s1 (acc ++ [(c, c)])
           end
  end.

Fixpoint read_name (s : string) : option (string * string) :=
  match s with
  | EmptyString => None
  | String c s1 =>
      if is_chr 62 c then Some (EmptyString, s1)
      else if in_ranges word_set c
      then match read_name s1 with
           | Some (n, rest) => Some (String c n, rest)
           | None => None
           end
      else None
  end.

Definition expect_close (x : option (regex * string)) (wrap : regex -> regex)
    : option (regex * string) :=
  match x with
  | Some (r, String c rest) => if is_chr 41 c then Some (wrap r, rest) else None
  | _ => None
  end.

Definition parse_atom (sub : string -> option (regex * string)) (s : string)
    : option (regex * string) :=
  match s with
  | EmptyString => None
  | String c s1 =>
      if is_chr 40 c then
        match s1 with
        | String q s2 =>
            if is_chr 63 q then
              match s2 with
              | String k s3 =>
                  if is_chr 61 k then expect_close (sub s3) RLookahead
                  else if is_chr 58 k then expect_close (sub s3) (fun r => r)
                  else if is_chr 80 k then
                    match s3 with
                    | String l s4 =>
                        if is_chr 60 l then
                          match read_name s4 with
                          | Some (String n0 n, s5) =>
                              expect_close (sub s5) (RGroup (Some (String n0 n)))
                          | _ => None
                          end
                        else None
                    | EmptyString => None
                    end
                  else None
              | EmptyString => None
              end
            else expect_close (sub s1) (RGroup None)
        | EmptyString => None
        end
      else if is_chr 91 c then
        match s1 with
        | String n s2 =>
            if is_chr 94 n
            then match parse_set_items s2 [] with
                 | Some (rs, rest) => Some (RSet true rs, rest)
                 | None => None
                 end
            else match parse_set_items s1 [] with
                 | Some (rs, rest) => Some (RSet false rs, rest)
                 | None => None
                 end
        | EmptyString => None
        end
      else if is_chr 92 c then
        match s1 with
        | String e s2 =>
            match parse_escape e with
            | Some r => Some (r, s2)
            | None => None
            end
        | EmptyString => None
        end
      else if is_chr 46 c then Some (RAny, s1)
      else if is_chr 36 c then Some (REnd, s1)
      else if is_chr 42 c || is_chr 43 c || is_chr 63 c || is_chr 41 c
              || is_chr 94 c || is_chr 123 c
      then None
      else Some (RChar c, s1)
  end.

(** A quantifier after the atom [a], with its lazy form. *)
Definition parse_quant (a : regex) (s : string) : regex * string :=
  let lazy (s1 : string) : bool * string :=
    match s1 with
    | String q s2 => if is_chr 63 q then (true, s2) else (false, s1)
    | EmptyString => (false, s1)
    end in
  match s with
  | String c s1 =>
      if is_chr 42 c then
        let '(lz, rest) := lazy s1 in (RStar (negb lz) a, rest)
      else if is_chr 43 c then
        let '(lz, rest) := lazy s1 in (RSeq a (RStar (negb lz) a), rest)
      else if is_chr 63 c then
        let '(lz, rest) := lazy s1 in
        ((if lz then RAlt REmpty a else RAlt a REmpty), rest)
      else (a, s)
  | EmptyString => (a, s)
  end.

Fixpoint parse_seq (sub : string -> option (regex * string)) (fuel : nat)
    (s : string) : option (regex * string) :=
  match fuel with
  | O => None
  | S fuel' =>
      match s with
      | EmptyString => Some (REmpty, s)
      | String c _ =>
          if is_chr 124 c || is_chr 41 c then Some (REmpty, s)
          else
            match parse_atom sub s with
            | Some (a, s1) =>
                let '(q, s2) := parse_quant a s1 in
                match parse_seq sub fuel' s2 with
                | Some (REmpty, s3) => Some (q, s3)
                | Some (rest, s3) => Some (RSeq q rest, s3)
                | None => None
                end
            | None => None
            end
      end
  end.

Fixpoint parse_alt (fuel : nat) (s : string) : option (regex * string) :=
  match fuel with
  | O => None
  | S fuel' =>
      match parse_seq (parse_alt fuel') (S (String.length s)) s with
      | Some (r1, String c s2) =>
          if is_chr 124 c then
            match parse_alt fuel' s2 with
            | Some (r2, s3) => Some (RAlt r1 r2, s3)
            | None => None
            end
          else Some (r1, String c s2)
      | other => other
      end
  end.

(** [re.VERBOSE]: unescaped whitespace and [#] comments are dropped
    outside character sets. *)
Fixpoint strip_verbose (s : string) (in_set in_comment : bool) : string :=
  match s with
  | EmptyString => EmptyString
  | String c s1 =>
      if in_comment then strip_verbose s1 false (negb (is_chr 10 c))
      else if in_set then String c (strip_verbose s1 (negb (is_chr 93 c)) false)
      else if is_chr 92 c then
        match s1 with
        | String e s2 => String c (String e (strip_verbose s2 false false))
        | EmptyString => String c EmptyString
        end
      else if is_chr 91 c then String c (strip_verbose s1 true false)
      else if is_chr 35 c then strip_verbose s1 false true
      else if Str.isspace c then strip_verbose s1 false false
      else String c (strip_verbose s1 false false)
  end.

Definition compile (pattern : string) (flags : Z) : outcome (Z * regex) :=
  if Z.testbit flags 8 && Z.testbit flags 5
  then Raise (ValueError "ASCII and UNICODE flags are incompatible")
  else
    let src := if Z.testbit flags 6 then strip_verbose pattern false false
               else pattern in
    match parse_alt (S (String.length src)) src with
    | Some (r, EmptyString) => Ok (flags, r)
    | _ => Raise (re_error "cannot parse the pattern")
    end.

End RefRe.

Definition ref_engine : ReEngine := {|
  Pattern := Z * RefRe.regex;
  re_compile := RefRe.compile;
  re_scan := RefRe.scan
|}.

(** ** JSON documents and configuration files *)

#[warnings="-register-all"] Inductive json : Type :=
| JNull
| JBool (b : bool)
| JNum (n : Z)
| JStr (s : string)
| JArr (items : list json)
| JObj (fields : gmap string json).

(** The Python type name of a decoded document, as error messages show it. *)
Definition type_name (j : json) : string :=
  match j with
  | JNull => "NoneType"
  | JBool _ => "bool"
  | JNum _ => "int"
  | JStr _ => "str"
  | JArr _ => "list"
  | JObj _ => "dict"
  end.

(** [data.get(key)]: only dictionaries have the method. *)
Definition py_get (data : json) (key : string) : outcome json :=
  match data with
  | JObj fields => Ok (default JNull (fields !! key))
  | other =>
      Raise (AttributeError
               ("'" +:+ type_name other +:+ "' object has no attribute 'get'"))
  end.

(** [data.setdefault(key, value)] *)
Definition py_setdefault (data : json) (key : string) (value : json)
    : outcome json :=
  match data with
  | JObj fields =>
      Ok (JObj (match fields !! key with
                | Some _ => fields
                | None => <[key := value]> fields
                end))
  | other =>
      Raise (AttributeError
               ("'" +:+ type_name other
                    +:+ "' object has no attribute 'setdefault'"))
  end.

(** Truthiness of a decoded document, as [if flags:] tests it. *)
Definition json_truthy (j : json) : bool :=
  match j with
  | JNull => false
  | JBool b => b
  | JNum n => negb (n =? 0)
  | JStr s => Str.truthy s
  | JArr items => match items with [] => false | _ => true end
  | JObj fields => negb (bool_decide (fields = ∅))
  end.

(** [isinstance(flags, list) and all(isinstance(x, str) for x in flags)] *)
Fixpoint str_items (items : list json) : option (list string) :=
  match items with
  | [] => Some []
  | JStr s :: rest => cons s <$> str_items rest
  | _ :: _ => None
  end.

(** [isinstance(x, str) and x.strip()], the test both loaders apply to a
    pattern. *)
Definition nonblank_str (x : json) : bool :=
  match x with
  | JStr s => Str.truthy (Str.strip s)
  | _ => false
  end.

(** What the file system and the decoder answer for a configuration path:
    [json.loads(path.read_text())] either raises or yields a document. *)
Inductive loaded : Type :=
| LoadRaises (exc : string)
| Loaded (data : json).

Record ConfigFile : Type := {
  path : string;
  path_exists : bool;
  path_is_file : bool;
  read_json : loaded
}.

(** ** Project5: patterns, configuration, block extraction *)

Module Project5.

Definition _FLAG_MAP : gmap string Z :=
  list_to_map
    [("IGNORECASE", re.IGNORECASE); ("MULTILINE", re.MULTILINE);
     ("DOTALL", re.DOTALL); ("UNICODE", re.UNICODE);
     ("ASCII", re.ASCII); ("VERBOSE", re.VERBOSE)].

(** The loop of [compile_pattern] over the flag names. *)
Fixpoint flags_loop (names : list string) (flags_val : Z) : outcome Z :=
  match names with
  | [] => Ok flags_val
  | name :: rest =>
      let up := Str.upper name in
      match _FLAG_MAP !! up with
      | None => Raise (HTTPException 400 ("Unknown regex flag: " +:+ name))
      | Some f => flags_loop rest (Z.lor flags_val f)
      end
  end.

Definition load_regex_config (cfg_path : ConfigFile) : outcome json :=
  if negb (path_exists cfg_path) || negb (path_is_file cfg_path) then
    Raise (HTTPException 404
             ("Config file not found at '" +:+ path cfg_path +:+ "'."))
  else
    match read_json cfg_path with
    | LoadRaises exc =>
        Raise (HTTPException 400 ("Failed to parse config JSON: " +:+ exc))
    | Loaded data =>
        q ← py_get data "question_regex";
        if negb (nonblank_str q) then
          Raise (HTTPException 400 "Config is missing 'question_regex' string.")
        else
          o ← py_get data "option_regex";
          if negb (nonblank_str o) then
            Raise (HTTPException 400 "Config is missing 'option_regex' string.")
          else
            data1 ← py_setdefault data "question_flags" (JArr []);
            py_setdefault data1 "option_flags" (JArr [])
    end.

(** A configuration dictionary as [parse_questions_with_config] reads it:
    [cfg["question_regex"]], [cfg["option_regex"]] and the two optional
    flag lists, typed as the signature of [compile_pattern] has them. *)
Record Cfg : Type := {
  question_regex : string;
  question_flags : option (list string);
  option_regex : string;
  option_flags : option (list string)
}.

Record QA : Type := MkQA {
  question : string;
  options : list string
}.

(** [x.strip()] on a value that may be [None]. *)
Definition strip_value (x : option string) : outcome string :=
  match x with
  | Some s => Ok (Str.strip s)
  | None =>
      Raise (AttributeError "'NoneType' object has no attribute 'strip'")
  end.

(** [m.groupdict().get(name, m.group(0))] *)
Definition group_or_match (name : string) (m : Match) : option string :=
  default (Some (group0 m)) (groupdict m !! name).

(** The inner loop: one pass over the option matches of a block. *)
Fixpoint options_loop (o_matches : list Match) (opts : list string)
    : outcome (list string) :=
  match o_matches with
  | [] => Ok opts
  | o_match :: rest =>
      opt_text ← strip_value (group_or_match "option" o_match);
      options_loop rest
        (if Str.truthy opt_text then opts ++ [opt_text] else opts)
  end.

Section WithEngine.
Context {E : ReEngine}.

Definition compile_pattern (pattern : string) (flags : option (list string))
    : outcome Pattern :=
  flags_val ← flags_loop (default [] flags) 0;
  try_re_compile pattern flags_val.

(** The outer loop: one pass over the question matches of the text. *)
Fixpoint questions_loop (o_pat : Pattern) (q_matches : list Match)
    (results : list QA) : outcome (list QA) :=
  match q_matches with
  | [] => Ok results
  | q_match :: rest =>
      let block := group0 q_match in
      q_text ← strip_value (group_or_match "question" q_match);
      opts ← options_loop (finditer o_pat block) [];
      questions_loop o_pat rest (results ++ [MkQA q_text opts])
  end.

Definition parse_questions_with_config (full_text : string) (cfg : Cfg)
    : outcome (list QA) :=
  q_pat ← compile_pattern (question_regex cfg) (question_flags cfg);
  o_pat ← compile_pattern (option_regex cfg) (option_flags cfg);
  questions_loop o_pat (finditer q_pat full_text) [].

End WithEngine.

End Project5.

(** ** Project4: one pattern from a configuration file *)

Module Project4.

Definition _FLAG_MAP : gmap string Z :=
  list_to_map
    [("IGNORECASE", re.IGNORECASE); ("MULTILINE", re.MULTILINE);
     ("DOTALL", re.DOTALL); ("UNICODE", re.UNICODE);
     ("ASCII", re.ASCII); ("VERBOSE", re.VERBOSE)].

Fixpoint flags_loop (names : list string) (flags_val : Z) : outcome Z :=
  match names with
  | [] => Ok flags_val
  | name :: rest =>
      match _FLAG_MAP !! Str.upper name with
      | None => Raise (HTTPException 400 ("Unknown regex flag: " +:+ name))
      | Some f => flags_loop rest (Z.lor flags_val f)
      end
  end.

(** [data.get("flags", [])] *)
Definition get_flags (data : json) : outcome json :=
  match data with
  | JObj fields => Ok (default (JArr []) (fields !! "flags"))
  | other =>
      Raise (AttributeError
               ("'" +:+ type_name other +:+ "' object has no attribute 'get'"))
  end.

Section WithEngine.
Context {E : ReEngine}.

Definition compile_regex_from_config (config_path : ConfigFile)
    : outcome Pattern :=
  if negb (path_exists config_path) || negb (path_is_file config_path) then
    Raise (HTTPException 404
             ("Config file not found at '" +:+ path config_path +:+ "'."))
  else
    match read_json config_path with
    | LoadRaises exc =>
        Raise (HTTPException 400 ("Failed to parse config JSON: " +:+ exc))
    | Loaded data =>
        pattern ← py_get data "regex";
        match pattern with
        | JStr pat =>
            if negb (Str.truthy (Str.strip pat)) then
              Raise (HTTPException 400 "Config is missing 'regex' string.")
            else
              flags ← get_flags data;
              flags_val ←
                (if json_truthy flags then
                   match flags with
                   | JArr items =>
                       match str_items items with
                       | Some names => flags_loop names 0
                       | None =>
                           Raise (HTTPException 400
                                    "'flags' must be a list of strings.")
                       end
                   | _ =>
                       Raise (HTTPException 400
                                "'flags' must be a list of strings.")
                   end
                 else Ok 0);
              try_re_compile pat flags_val
        | _ => Raise (HTTPException 400 "Config is missing 'regex' string.")
        end
    end.

End WithEngine.

End Project4.

(** ** Project8: polymorphic questions *)

Module Project8.

(** *** schemas.py *)

(** The body of a request before validation.  The required fields are
    optional here because a body may leave them out. *)
Record Body : Type := {
  b_type : option string;
  b_subject_name : option string;
  b_chapter_name : option string;
  b_question_text : option string;
  b_source_file : option string;
  b_page_start : option Z;
  b_page_end : option Z;
  b_suggested_answer : option string;
  b_option_true_label : option string;
  b_option_false_label : option string;
  b_correct_is_true : option bool;
  b_answer_options : option (list string)
}.

Record QuestionBaseIn : Type := {
  subject_name : string;
  chapter_name : option string;
  question_text : string;
  source_file : option string;
  page_start : option Z;
  page_end : option Z
}.

Inductive QuestionIn : Type :=
| SubjectiveIn (base : QuestionBaseIn) (suggested_answer : option string)
| TrueFalseIn (base : QuestionBaseIn) (option_true_label : string)
    (option_false_label : string) (correct_is_true : option bool)
| MCQIn (base : QuestionBaseIn) (answer_options : list string).

(** [Field(..., min_length=1)] *)
Definition required_str (field : string) (v : option string) : list verror :=
  match v with
  | None => [missing field]
  | Some s => if Str.truthy s then [] else [too_short field]
  end.

(** [Field(None, gt=0)] *)
Definition optional_gt0 (field : string) (v : option Z) : list verror :=
  match v with
  | None => []
  | Some n => if 0 <? n then [] else [not_positive field]
  end.

(** [type: Literal[expected] = expected] *)
Definition literal_type (expected : string) (v : option string)
    : list verror :=
  match v with
  | None => []
  | Some t => if String.eqb t expected then [] else [wrong_literal "type" expected]
  end.

Definition base_errors (b : Body) : list verror :=
  required_str "subject_name" (b_subject_name b)
  ++ required_str "question_text" (b_question_text b)
  ++ optional_gt0 "page_start" (b_page_start b)
  ++ optional_gt0 "page_end" (b_page_end b).

Definition base_of (b : Body) : QuestionBaseIn := {|
  subject_name := default "" (b_subject_name b);
  chapter_name := b_chapter_name b;
  question_text := default "" (b_question_text b);
  source_file := b_source_file b;
  page_start := b_page_start b;
  page_end := b_page_end b
|}.

Definition _must_have_at_least_two (v : list string) : outcome (list string) :=
  if negb (match v with [] => false | _ => true end)
     || (Z.of_nat (length v) <? 2)
  then Raise (ValueError "MCQ requires at least two options.")
  else Ok v.

(** The field [answer_options] with its validator. *)
Definition answer_options_errors (v : option (list string)) : list verror :=
  match v with
  | None => [missing "answer_options"]
  | Some l =>
      match _must_have_at_least_two l with
      | Ok _ => []
      | Raise e => [value_error "answer_options" (str_of_exn e)]
      end
  end.

Definition validated (errors : list verror) (q : QuestionIn)
    : list verror + QuestionIn :=
  match errors with
  | [] => inr q
  | _ => inl errors
  end.

Definition parse_SubjectiveIn (b : Body) : list verror + QuestionIn :=
  validated (base_errors b ++ literal_type "subjective" (b_type b))
    (SubjectiveIn (base_of b) (b_suggested_answer b)).

Definition parse_TrueFalseIn (b : Body) : list verror + QuestionIn :=
  validated (base_errors b ++ literal_type "true_false" (b_type b))
    (TrueFalseIn (base_of b)
       (default "True" (b_option_true_label b))
       (default "False" (b_option_false_label b))
       (b_correct_is_true b)).

Definition parse_MCQIn (b : Body) : list verror + QuestionIn :=
  validated (base_errors b ++ literal_type "mcq" (b_type b)
             ++ answer_options_errors (b_answer_options b))
    (MCQIn (base_of b) (default [] (b_answer_options b))).

(** [QuestionIn = Union[SubjectiveIn, TrueFalseIn, MCQIn]]: the members
    are tried in this order and the first that validates is taken; when
    none does, the report lists the errors of all three. *)
Definition parse_QuestionIn (b : Body) : outcome QuestionIn :=
  match parse_SubjectiveIn b with
  | inr q => Ok q
  | inl e1 =>
      match parse_TrueFalseIn b with
      | inr q => Ok q
      | inl e2 =>
          match parse_MCQIn b with
          | inr q => Ok q
          | inl e3 => Raise (RequestValidationError (e1 ++ e2 ++ e3))
          end
      end
  end.

(** The entry of the validation report that stands for too few options. *)
Definition InsufficientOptions : verror :=
  value_error "answer_options" "MCQ requires at least two options.".

(** *** models.py *)

(** The columns of the table [questions]; [created_at] is filled in by
    the server and is left out. *)
Record QuestionRow : Type := {
  r_type : string;
  r_subject_name : string;
  r_chapter_name : option string;
  r_question_text : string;
  r_answer_options : option (list string);
  r_source_file : option string;
  r_page_start : option Z;
  r_page_end : option Z
}.

(** The columns a subclass adds, one constructor per extension table. *)
Inductive Extension : Type :=
| SubjectiveQuestion (suggested_answer : option string)
| TrueFalseQuestion (option_true_label option_false_label : string)
    (correct_is_true : option bool)
| MCQQuestion (correct_indices : option (list Z)).

(** A mapped object: its identity once flushed, the base columns and the
    columns of its own table. *)
Record QuestionBase : Type := {
  id : option nat;
  row : QuestionRow;
  ext : Extension
}.

Record Tables : Type := {
  questions : gmap nat QuestionRow;
  questions_subjective : gmap nat (option string);
  questions_truefalse : gmap nat (string * string * option bool);
  questions_mcq : gmap nat (option (list Z))
}.

Definition insert_base (k : nat) (r : QuestionRow) (t : Tables) : Tables := {|
  questions := <[k := r]> (questions t);
  questions_subjective := questions_subjective t;
  questions_truefalse := questions_truefalse t;
  questions_mcq := questions_mcq t
|}.

Definition insert_ext (k : nat) (e : Extension) (t : Tables) : Tables :=
  match e with
  | SubjectiveQuestion a => {|
      questions := questions t;
      questions_subjective := <[k := a]> (questions_subjective t);
      questions_truefalse := questions_truefalse t;
      questions_mcq := questions_mcq t |}
  | TrueFalseQuestion lt lf c => {|
      questions := questions t;
      questions_subjective := questions_subjective t;
      questions_truefalse := <[k := (lt, lf, c)]> (questions_truefalse t);
      questions_mcq := questions_mcq t |}
  | MCQQuestion ci => {|
      questions := questions t;
      questions_subjective := questions_subjective t;
      questions_truefalse := questions_truefalse t;
      questions_mcq := <[k := ci]> (questions_mcq t) |}
  end.

(** *** db.py: the session

    [committed] is what every other connection can read.  [txn] is the
    private view of the open transaction, if any; [new] holds the objects
    added and not yet flushed; [sequence] feeds the primary key. *)
Record Session : Type := {
  committed : Tables;
  txn : option Tables;
  new : list QuestionBase;
  sequence : nat
}.

(** A statement sent to the storage engine. *)
Inductive statement : Type :=
| INSERT_questions (k : nat) (r : QuestionRow)
| INSERT_extension (k : nat) (e : Extension)
| COMMIT.

Definition with_new (s : Session) (l : list QuestionBase) : Session :=
  {| committed := committed s; txn := txn s; new := l;
     sequence := sequence s |}.

Definition with_txn (s : Session) (t : option Tables) : Session :=
  {| committed := committed s; txn := t; new := new s;
     sequence := sequence s |}.

Definition db_add (obj : QuestionBase) (s : Session) : Session :=
  with_new s (new s ++ [obj]).

Definition db_rollback (s : Session) : Session :=
  {| committed := committed s; txn := None; new := [];
     sequence := sequence s |}.

(** The storage engine may refuse any statement, with a message:
    [refuses] is its answer to each statement. *)
Definition engine : Type := statement -> option string.

(** The two INSERTs of one object, in the transaction of the session. *)
Definition flush_one (refuses : engine) (obj : QuestionBase) (s : Session)
    : outcome QuestionBase * Session :=
  let k := sequence s in
  let view := default (committed s) (txn s) in
  let s0 := {| committed := committed s; txn := Some view; new := new s;
               sequence := S k |} in
  match refuses (INSERT_questions k (row obj)) with
  | Some msg => (Raise (StorageError msg), s0)
  | None =>
      let view1 := insert_base k (row obj) view in
      match refuses (INSERT_extension k (ext obj)) with
      | Some msg => (Raise (StorageError msg), with_txn s0 (Some view1))
      | None =>
          (Ok {| id := Some k; row := row obj; ext := ext obj |},
           with_txn s0 (Some (insert_ext k (ext obj) view1)))
      end
  end.

Fixpoint flush_all (refuses : engine) (objs : list QuestionBase)
    (done : list QuestionBase) (s : Session)
    : outcome (list QuestionBase) * Session :=
  match objs with
  | [] => (Ok done, with_new s [])
  | obj :: rest =>
      match flush_one refuses obj s with
      | (Ok obj', s') => flush_all refuses rest (done ++ [obj']) s'
      | (Raise e, s') => (Raise e, s')
      end
  end.

Definition db_flush (refuses : engine) (s : Session)
    : outcome (list QuestionBase) * Session :=
  flush_all refuses (new s) [] s.

Definition db_commit (refuses : engine) (s : Session)
    : outcome unit * Session :=
  match db_flush refuses s with
  | (Raise e, s') => (Raise e, s')
  | (Ok _, s') =>
      match refuses COMMIT with
      | Some msg => (Raise (StorageError msg), s')
      | None =>
          (Ok tt,
           {| committed := default (committed s') (txn s'); txn := None;
              new := new s'; sequence := sequence s' |})
      end
  end.

(** *** repository.py *)

Definition strip_or_none (v : option string) : option string :=
  let s := Str.strip (default "" v) in
  if Str.truthy s then Some s else None.

Definition base_row (type : string) (q : QuestionBaseIn)
    (answer_options : option (list string)) : QuestionRow := {|
  r_type := type;
  r_subject_name := Str.strip (subject_name q);
  r_chapter_name := strip_or_none (chapter_name q);
  r_question_text := question_text q;
  r_answer_options := answer_options;
  r_source_file := source_file q;
  r_page_start := page_start q;
  r_page_end := page_end q
|}.

(** The object [QuestionRepository.add] builds for [q].  [QuestionIn] is
    a closed type here, so the final [else] branch of the source, which
    raises for any other payload, has no counterpart. *)
Definition construct (q : QuestionIn) : QuestionBase :=
  match q with
  | SubjectiveIn b a =>
      {| id := None; row := base_row "subjective" b None;
         ext := SubjectiveQuestion a |}
  | TrueFalseIn b lt lf c =>
      {| id := None; row := base_row "true_false" b None;
         ext := TrueFalseQuestion lt lf c |}
  | MCQIn b opts =>
      {| id := None; row := base_row "mcq" b (Some opts);
         ext := MCQQuestion None |}
  end.

Module QuestionRepository.
Definition add (refuses : engine) (db : Session) (q : QuestionIn)
    : outcome QuestionBase * Session :=
  let obj := construct q in
  match db_flush refuses (db_add obj db) with
  | (Ok flushed, db') => (Ok (List.last flushed obj), db')
  | (Raise e, db') => (Raise e, db')
  end.
End QuestionRepository.

(** *** main.py *)

Inductive Response : Type :=
| Created (message : string) (id : option nat) (type : string).

Definition create_question (refuses : engine) (payload : QuestionIn)
    (db : Session) : outcome Response * Session :=
  let attempt :=
    match QuestionRepository.add refuses db payload with
    | (Ok obj, db1) =>
        match db_commit refuses db1 with
        | (Ok _, db2) => (Ok obj, db2)
        | (Raise e, db2) => (Raise e, db2)
        end
    | (Raise e, db1) => (Raise e, db1)
    end in
  match attempt with
  | (Ok obj, db') => (Ok (Created "created" (id obj) (r_type (row obj))), db')
  | (Raise exc, db') =>
      (Raise (HTTPException 500
                ("Failed to store question: " +:+ str_of_exn exc)),
       db_rollback db')
  end.

(** The route [POST /questions]: the body is validated into [QuestionIn]
    before the handler runs. *)
Definition post_questions (refuses : engine) (body : Body) (db : Session)
    : outcome Response * Session :=
  match parse_QuestionIn body with
  | Ok payload => create_question refuses payload db
  | Raise e => (Raise e, db)
  end.

End Project8.

(** ** Vocabulary of the statements *)

(** A flag name is recognized when its upper-case form is a key of
    [_FLAG_MAP]. *)
Definition recognized (name : string) : Prop :=
  is_Some (Project5._FLAG_MAP !! Str.upper name).

Definition flag_of (name : string) : Z :=
  default 0 (Project5._FLAG_MAP !! Str.upper name).

#[global] Instance recognized_dec (name : string)
    : Decision (recognized name) :=
  is_Some_dec (Project5._FLAG_MAP !! Str.upper name).

(** The bitwise union of the flags a list of names stands for. *)
Definition flag_union (names : list string) : Z :=
  foldr (fun n acc => Z.lor (flag_of n) acc) 0 names.

(** The error kinds of the configuration and compilation steps, as the
    responses the code raises for them. *)
Definition InvalidFlag (name : string) : exn :=
  HTTPException 400 ("Unknown regex flag: " +:+ name).

Definition ConfigNotFound (cfg_path : ConfigFile) : exn :=
  HTTPException 404 ("Config file not found at '" +:+ path cfg_path +:+ "'.").

Definition ConfigMalformed (exc : string) : exn :=
  HTTPException 400 ("Failed to parse config JSON: " +:+ exc).

Definition ConfigIncomplete (key : string) : exn :=
  HTTPException 400 ("Config is missing '" +:+ key +:+ "' string.").

(** The exception of [None.strip()]. *)
Definition NoneType_strip : exn :=
  AttributeError "'NoneType' object has no attribute 'strip'".

(** *** Segmentation as the specification words it

    The extracted text of a match: the named group when the pattern
    declares it, else the whole match, trimmed.  There is none when the
    declared group took no part in the match. *)
Definition extracted_text (name : string) (m : Match) : option string :=
  match groupdict m !! name with
  | None => Some (Str.strip (group0 m))
  | Some (Some g) => Some (Str.strip g)
  | Some None => None
  end.

Definition option_fragments `{ReEngine} (o_pat : Pattern) (block : string)
    : option (list string) :=
  List.filter Str.truthy
    <$> mapM (extracted_text "option") (finditer o_pat block).

Definition text_block `{ReEngine} (o_pat : Pattern) (m : Match)
    : option Project5.QA :=
  q ← extracted_text "question" m;
  opts ← option_fragments o_pat (group0 m);
  Some (Project5.MkQA q opts).

Definition segment `{ReEngine} (q_pat o_pat : Pattern) (text : string)
    : option (list Project5.QA) :=
  mapM (text_block o_pat) (finditer q_pat text).

(** Every declared group takes part in every match, outer and inner. *)
Definition groups_take_part `{ReEngine} (q_pat o_pat : Pattern)
    (text : string) : Prop :=
  Forall (fun m =>
            groupdict m !! "question" <> Some None /\
            Forall (fun om => groupdict om !! "option" <> Some None)
                   (finditer o_pat (group0 m)))
         (finditer q_pat text).





(** ** Sample inputs *)

(** The pattern the reference engine reads from [src], without flags. *)
Definition pattern_of (src : string) : Z * RefRe.regex :=
  match RefRe.compile src 0 with
  | Ok p => p
  | Raise _ => (0, RefRe.REmpty)
  end.

Definition quiz_text : string :=
  "Q1. What is 2+2? (A) 3 (B) 4 Q2. Capital of France? (A) Paris".

Definition quiz_cfg : Project5.Cfg := {|
  Project5.question_regex := "Q\d+\.(?P<question>.*?)(?=Q\d+\.|$)";
  Project5.question_flags := None;
  Project5.option_regex := "\([A-D]\)\s*(?P<option>.*?)(?=\([A-D]\)|$)";
  Project5.option_flags := Some []
|}.

(** An outer rule whose named group sits in one branch of an alternation. *)
Definition alt_cfg : Project5.Cfg := {|
  Project5.question_regex := "(?P<question>a)|b";
  Project5.question_flags := None;
  Project5.option_regex := "x";
  Project5.option_flags := None
|}.

(** A configuration file that holds the JSON document [[]]. *)
Definition array_config : ConfigFile := {|
  path := "config.json";
  path_exists := true;
  path_is_file := true;
  read_json := Loaded (JArr [])
|}.

(** An MCQ body with two options and an empty subject name. *)
Definition unnamed_subject : Project8.Body := {|
  Project8.b_type := Some "mcq";
  Project8.b_subject_name := Some "";
  Project8.b_chapter_name := None;
  Project8.b_question_text := Some "Pick one";
  Project8.b_source_file := None;
  Project8.b_page_start := None;
  Project8.b_page_end := None;
  Project8.b_suggested_answer := None;
  Project8.b_option_true_label := None;
  Project8.b_option_false_label := None;
  Project8.b_correct_is_true := None;
  Project8.b_answer_options := Some ["A"; "B"]
|}.

(** A well-formed MCQ body with the options [opts]. *)
Definition pick_one (opts : list string) : Project8.Body := {|
  Project8.b_type := Some "mcq";
  Project8.b_subject_name := Some "Maths";
  Project8.b_chapter_name := Some " Sums ";
  Project8.b_question_text := Some "Pick one";
  Project8.b_source_file := None;
  Project8.b_page_start := Some 1;
  Project8.b_page_end := None;
  Project8.b_suggested_answer := None;
  Project8.b_option_true_label := None;
  Project8.b_option_false_label := None;
  Project8.b_correct_is_true := None;
  Project8.b_answer_options := Some opts
|}.

Definition empty_tables : Project8.Tables := {|
  Project8.questions := ∅;
  Project8.questions_subjective := ∅;
  Project8.questions_truefalse := ∅;
  Project8.questions_mcq := ∅
|}.

Definition fresh_session : Project8.Session := {|
  Project8.committed := empty_tables;
  Project8.txn := None;
  Project8.new := [];
  Project8.sequence := 1
|}.

Definition accepts_all : Project8.engine := fun _ => None.


(** ** More of the services *)

Module Text.

Definition newline : string := String (ascii_of_nat 10) EmptyString.

(** [sep.join(parts)] *)
Fixpoint join (sep : string) (parts : list string) : string :=
  match parts with
  | [] => EmptyString
  | p :: rest =>
      match rest with
      | [] => p
      | _ :: _ => p +:+ sep +:+ join sep rest
      end
  end.

(** [s.replace(old, new)] for one-character [old] and [new]. *)
Fixpoint replace_char (old new : ascii) (s : string) : string :=
  match s with
  | EmptyString => EmptyString
  | String c s' =>
      String (if Ascii.eqb c old then new else c) (replace_char old new s')
  end.

(** The character [c] occurs in [s]. *)
Fixpoint has_char (c : ascii) (s : string) : bool :=
  match s with
  | EmptyString => false
  | String d s' => Ascii.eqb d c || has_char c s'
  end.

(** [x or d] for an optional integer: [None] and [0] are falsy. *)
Definition int_or (x : option Z) (d : Z) : Z :=
  match x with
  | Some n => if n =? 0 then d else n
  | None => d
  end.

End Text.

(** *** Project5: file names and page ranges

    A document opened by [fitz.open] is the list of the texts of its
    pages; opening may raise. *)

Module Project5Pdf.

Definition slash : ascii := ascii_of_nat 47.
Definition backslash : ascii := ascii_of_nat 92.
Definition underscore : ascii := ascii_of_nat 95.

(** [path_name] stands for [Path(name).name], which depends on the
    platform's path flavour. *)
Definition safe_filename (path_name : string -> string) (name : string)
    : string :=
  Text.replace_char slash underscore
    (Text.replace_char backslash underscore (path_name name)).

(** [doc.load_page(i).get_text("text")] *)
Definition load_page (pages : list string) (i : nat) : outcome string :=
  match pages !! i with
  | Some t => Ok t
  | None => Raise (ValueError "page not in document")
  end.

Definition extract_pdf_text_range (doc : outcome (list string))
    (start_page end_page : option Z) : outcome string :=
  pages ← doc;
  let page_count := Z.of_nat (length pages) in
  let s := Text.int_or start_page 1 in
  let e := Text.int_or end_page page_count in
  if (s <? 1) || (e <? 1) || (e <? s) || (page_count <? e) then
    Raise (HTTPException 400
             ("Invalid page range. Document has " +:+ pretty page_count
                +:+ " pages."))
  else
    parts ← mapM (load_page pages)
               (seq (Z.to_nat (s - 1)) (Z.to_nat (e - (s - 1))));
    Ok (Str.strip (Text.join Text.newline parts)).

End Project5Pdf.

(** *** Project4: one page of a document *)

Module Project4Pdf.

Definition no_text : string := "[No extractable text on this page]".

Definition extract_pdf_page_text (doc : outcome (list string)) (page_num : Z)
    : outcome string :=
  pages ← doc;
  let page_count := Z.of_nat (length pages) in
  if (page_num <? 1) || (page_count <? page_num) then
    Raise (HTTPException 400
             ("Page number out of range (1.." +:+ pretty page_count +:+ ")."))
  else
    page ← Project5Pdf.load_page pages (Z.to_nat (page_num - 1));
    let txt := Str.strip page in
    Ok (if Str.truthy txt then txt else no_text).

End Project4Pdf.

(** *** Project5: storing the parsed questions

    The last step of [ingest_pdf_questions]: one [Question] per parsed
    item is added to the session, one commit follows, and any failure
    rolls the session back and becomes a 500 response. *)

Module Project5Ingest.

(** The columns of [Question] the handler sets; [id] and [created_at]
    come from the server. *)
Record Question : Type := {
  subject_name : string;
  chapter_name : option string;
  question_text : string;
  answer_options : list string;
  source_file : string;
  page_start : option Z;
  page_end : option Z
}.

Record Session : Type := {
  committed : gmap nat Question;
  txn : option (gmap nat Question);
  new : list Question;
  sequence : nat
}.

Inductive statement : Type :=
| INSERT (k : nat) (q : Question)
| COMMIT.

Definition engine : Type := statement -> option string.

Definition db_add (q : Question) (s : Session) : Session :=
  {| committed := committed s; txn := txn s; new := new s ++ [q];
     sequence := sequence s |}.

Definition db_rollback (s : Session) : Session :=
  {| committed := committed s; txn := None; new := [];
     sequence := sequence s |}.

(** The INSERTs of a flush, in the order the objects were added. *)
Fixpoint flush_all (refuses : engine) (objs : list Question) (s : Session)
    : outcome unit * Session :=
  match objs with
  | [] =>
      (Ok tt, {| committed := committed s; txn := txn s; new := [];
                 sequence := sequence s |})
  | q :: rest =>
      let k := sequence s in
      let view := default (committed s) (txn s) in
      match refuses (INSERT k q) with
      | Some msg =>
          (Raise (StorageError msg),
           {| committed := committed s; txn := Some view; new := new s;
              sequence := S k |})
      | None =>
          flush_all refuses rest
            {| committed := committed s; txn := Some (<[k := q]> view);
               new := new s; sequence := S k |}
      end
  end.

Definition db_commit (refuses : engine) (s : Session)
    : outcome unit * Session :=
  match flush_all refuses (new s) s with
  | (Raise e, s') => (Raise e, s')
  | (Ok _, s') =>
      match refuses COMMIT with
      | Some msg => (Raise (StorageError msg), s')
      | None =>
          (Ok tt,
           {| committed := default (committed s') (txn s'); txn := None;
              new := new s'; sequence := sequence s' |})
      end
  end.

Definition question_of (subject : string) (chapter : option string)
    (pdf_path : string) (page_from page_to : option Z) (it : Project5.QA)
    : Question := {|
  subject_name := Str.strip subject;
  chapter_name :=
    (let c := Str.strip (default "" chapter) in
     if Str.truthy c then Some c else None);
  question_text := Project5.question it;
  answer_options := Project5.options it;
  source_file := pdf_path;
  page_start := page_from;
  page_end := page_to
|}.

Record Ingested : Type := {
  message : string;
  questions_found : nat;
  inserted : nat
}.

Definition store_questions (refuses : engine) (subject : string)
    (chapter : option string) (pdf_path : string)
    (page_from page_to : option Z) (items : list Project5.QA) (db : Session)
    : outcome Ingested * Session :=
  let added :=
    foldl (fun s it =>
             db_add (question_of subject chapter pdf_path page_from page_to it) s)
          db items in
  match db_commit refuses added with
  | (Ok _, db') =>
      (Ok {| message := "ingested"; questions_found := length items;
             inserted := length items |}, db')
  | (Raise exc, db') =>
      (Raise (HTTPException 500 ("DB insert failed: " +:+ str_of_exn exc)),
       db_rollback db')
  end.

End Project5Ingest.

(** *** Project7: the links of a feed *)

Module Project7.

(** The loop of [parse_rss_links] over the texts of the [item/link]
    elements: [links] is the list built so far, [seen] the set of its
    members. *)
Fixpoint links_loop (texts : list (option string)) (links : list string)
    (seen : gset string) : list string :=
  match texts with
  | [] => links
  | el_text :: rest =>
      match el_text with
      | Some t =>
          if Str.truthy t then
            let url := Str.strip t in
            if Str.truthy url && negb (bool_decide (url ∈ seen))
            then links_loop rest (links ++ [url]) ({[url]} ∪ seen)
            else links_loop rest links seen
          else links_loop rest links seen
      | None => links_loop rest links seen
      end
  end.

(** [item_link_texts] stands for the XML library: the texts of
    [ET.fromstring(xml_text).findall(".//item/link")], or [None] when the
    document does not parse. *)
Definition parse_rss_links
    (item_link_texts : string -> option (list (option string)))
    (xml_text : string) : list string :=
  if negb (Str.truthy (Str.strip xml_text)) then []
  else
    match item_link_texts xml_text with
    | None => []
    | Some texts => links_loop texts [] ∅
    end.

End Project7.

(** *** Vocabulary for the added statements *)


Definition base_in (q : Project8.QuestionIn) : Project8.QuestionBaseIn :=
  match q with
  | Project8.SubjectiveIn b _ | Project8.TrueFalseIn b _ _ _
  | Project8.MCQIn b _ => b
  end.



(** The unique values of a list, each at its first place. *)
Fixpoint first_occurrences (l : list string) : list string :=
  match l with
  | [] => []
  | x :: rest =>
      x :: List.filter (fun y => negb (String.eqb x y)) (first_occurrences rest)
  end.

(** The trimmed, non-empty texts among those of the link elements. *)
Definition link_candidates (texts : list (option string)) : list string :=
  omap (fun el_text =>
          match el_text with
          | Some t =>
              if Str.truthy t && Str.truthy (Str.strip t)
              then Some (Str.strip t) else None
          | None => None
          end) texts.

(** The pages [s..e] of a document, counted from 1, both ends included. *)
Definition page_span (pages : list string) (s e : Z) : list string :=
  take (Z.to_nat (e - (s - 1))) (drop (Z.to_nat (s - 1)) pages).

Definition InvalidPageRange (page_count : Z) : exn :=
  HTTPException 400
    ("Invalid page range. Document has " +:+ pretty page_count +:+ " pages.").

Definition PageOutOfRange (page_count : Z) : exn :=
  HTTPException 400
    ("Page number out of range (1.." +:+ pretty page_count +:+ ").").

(** [fields.setdefault(key, [])] as a map. *)
Definition with_default (key : string) (fields : gmap string json)
    : gmap string json :=
  match fields !! key with
  | Some _ => fields
  | None => <[key := JArr []]> fields
  end.

Definition InvalidExpression (msg : string) : exn :=
  HTTPException 400 ("Invalid regex: " +:+ msg).

Definition FlagsNotAList : exn :=
  HTTPException 400 "'flags' must be a list of strings.".

(** A configuration of Project4 whose flags entry is the number 0. *)
Definition numeric_flags_config : ConfigFile := {|
  path := "config.json";
  path_exists := true;
  path_is_file := true;
  read_json :=
    Loaded (JObj (<["regex" := JStr "q\d"]> (<["flags" := JNum 0]> ∅)))
|}.



(** The table after inserting [objs] under the keys [k], [k+1], ... *)
Fixpoint insert_rows (k : nat) (objs : list Project5Ingest.Question)
    (view : gmap nat Project5Ingest.Question)
    : gmap nat Project5Ingest.Question :=
  match objs with
  | [] => view
  | q :: rest => insert_rows (S k) rest (<[k := q]> view)
  end.

Definition InsertFailed (msg : string) : exn :=
  HTTPException 500 ("DB insert failed: " +:+ msg).

(** A storage engine for the ingest step that refuses the row whose
    question text is empty. *)
Definition refuses_blank : Project5Ingest.engine :=
  fun st =>
    match st with
    | Project5Ingest.INSERT _ q =>
        if Str.truthy (Project5Ingest.question_text q) then None
        else Some "empty question"
    | Project5Ingest.COMMIT => None
    end.

Definition empty_ingest_session : Project5Ingest.Session := {|
  Project5Ingest.committed := ∅;
  Project5Ingest.txn := None;
  Project5Ingest.new := [];
  Project5Ingest.sequence := 1
|}.

(** [u not in links], as the loop tests it. *)
Definition not_in (links : list string) (u : string) : bool :=
  negb (bool_decide (u ∈ links)).


(** * Facts about strings *)

Lemma append_nil (b : string) : "" +:+ b = b.
Proof. reflexivity. Qed.

Lemma append_cons (c : ascii) (a b : string) :
  String c a +:+ b = String c (a +:+ b).
Proof. reflexivity. Qed.

Lemma append_assoc (a b c : string) : (a +:+ b) +:+ c = a +:+ (b +:+ c).
Proof.
  induction a as [|x a IH]; [done|].
  by rewrite !append_cons, IH.
Qed.

Lemma append_empty_r (a : string) : a +:+ "" = a.
Proof. induction a as [|x a IH]; [done | by rewrite append_cons, IH]. Qed.

Lemma occurs_in_refl (s : string) : Str.occurs_in s s.
Proof. exists "", "". by rewrite append_nil, append_empty_r. Qed.

Lemma occurs_in_trans (a b c : string) :
  Str.occurs_in a b -> Str.occurs_in b c -> Str.occurs_in a c.
Proof.
  intros (p1 & s1 & ->) (p2 & s2 & ->).
  exists (p2 +:+ p1), (s1 +:+ s2).
  by rewrite !append_assoc.
Qed.

Lemma lstrip_suffix (s : string) : exists pre, s = pre +:+ Str.lstrip s.
Proof.
  induction s as [|c s [pre IH]]; simpl.
  - by exists "".
  - destruct (Str.isspace c).
    + exists (String c pre). by rewrite append_cons, <- IH.
    + by exists "".
Qed.

Lemma rstrip_prefix (s : string) : exists suf, s = Str.rstrip s +:+ suf.
Proof.
  induction s as [|c s [suf IH]]; simpl.
  - by exists "".
  - destruct (Str.rstrip s) as [|d r] eqn:Hr.
    + destruct (Str.isspace c); [by exists (String c s) | by exists s].
    + exists suf. by rewrite append_cons, <- IH.
Qed.

Lemma strip_occurs (s : string) : Str.occurs_in (Str.strip s) s.
Proof.
  unfold Str.strip.
  destruct (lstrip_suffix s) as [pre Hpre].
  destruct (rstrip_prefix (Str.lstrip s)) as [suf Hsuf].
  exists pre, suf. by rewrite <- Hsuf.
Qed.

Lemma substring_prefix (k : nat) (t : string) :
  exists suf, t = substring 0 k t +:+ suf.
Proof.
  revert k. induction t as [|d t IH]; intros k.
  - destruct k; by exists "".
  - destruct k as [|k]; simpl.
    + by exists (String d t).
    + destruct (IH k) as [suf Hs]. exists suf. by rewrite append_cons, <- Hs.
Qed.

Lemma substring_occurs (n m : nat) (s : string) :
  Str.occurs_in (substring n m s) s.
Proof.
  revert n. induction s as [|c s IH]; intros n.
  - destruct n, m; apply occurs_in_refl.
  - destruct n as [|n].
    + destruct (substring_prefix m (String c s)) as [suf Hs].
      exists "", suf. by rewrite append_nil.
    + simpl. destruct (IH n) as (pre & suf & Heq).
      exists (String c pre), suf. by rewrite append_cons, <- Heq.
Qed.

Lemma slice_occurs (s : string) (a b : nat) : Str.occurs_in (Str.slice s a b) s.
Proof. apply substring_occurs. Qed.

Lemma rstrip_idem (s : string) : Str.rstrip (Str.rstrip s) = Str.rstrip s.
Proof.
  induction s as [|c s IH]; [done|]. simpl.
  destruct (Str.rstrip s) as [|d r] eqn:Hr.
  - destruct (Str.isspace c) eqn:Hc; simpl; [done | by rewrite Hc].
  - simpl in *. by rewrite IH.
Qed.

Lemma rstrip_head (c : ascii) (s : string) :
  Str.isspace c = false -> exists r, Str.rstrip (String c s) = String c r.
Proof.
  intros Hc. simpl. destruct (Str.rstrip s); rewrite ?Hc; eauto.
Qed.

Lemma lstrip_head (s : string) :
  Str.lstrip s = "" \/
  exists c r, Str.lstrip s = String c r /\ Str.isspace c = false.
Proof.
  induction s as [|c s IH]; simpl; [by left|].
  destruct (Str.isspace c) eqn:Hc; [done | right; eauto].
Qed.

Lemma strip_idem (s : string) : Str.strip (Str.strip s) = Str.strip s.
Proof.
  unfold Str.strip.
  destruct (lstrip_head s) as [-> | (c & r & -> & Hc)]; [done|].
  destruct (rstrip_head c r Hc) as [r' Hr]. rewrite Hr.
  simpl Str.lstrip. rewrite Hc. rewrite <- Hr. apply rstrip_idem.
Qed.

Lemma truthy_spec (s : string) : Str.truthy s = true <-> s <> "".
Proof. destruct s; simpl; split; congruence. Qed.

Lemma upper_char_idem (c : ascii) :
  Str.upper_char (Str.upper_char c) = Str.upper_char c.
Proof. destruct c as [[] [] [] [] [] [] [] []]; reflexivity. Qed.

Lemma upper_idem (s : string) : Str.upper (Str.upper s) = Str.upper s.
Proof.
  induction s as [|c s IH]; simpl; [done|].
  by rewrite upper_char_idem, IH.
Qed.

(** * Flag names *)

Lemma flags_loop_recognized (names : list string) (v : Z) :
  Forall recognized names ->
  Project5.flags_loop names v = Ok (Z.lor v (flag_union names)).
Proof.
  intros Hall. revert v.
  induction Hall as [|n names [f Hf] _ IH]; intros v; simpl.
  - by rewrite Z.lor_0_r.
  - rewrite Hf, IH. unfold flag_of. rewrite Hf. simpl.
    by rewrite Z.lor_assoc.
Qed.

Lemma flags_loop_unknown (names : list string) (v : Z) :
  ~ Forall recognized names ->
  exists bad, bad ∈ names /\ ~ recognized bad /\
    Project5.flags_loop names v = Raise (InvalidFlag bad).
Proof.
  revert v. induction names as [|n names IH]; intros v Hnot.
  - destruct Hnot. constructor.
  - simpl. destruct (Project5._FLAG_MAP !! Str.upper n) as [f|] eqn:Hf.
    + destruct (IH (Z.lor v f)) as (bad & Hin & Hbad & Heq).
      { intros Hall. apply Hnot. constructor; [by exists f | done]. }
      exists bad. split; [by right | done].
    + exists n. split; [by left|]. split; [|done].
      unfold recognized. rewrite Hf. by intros [? ?].
Qed.

Lemma flag_union_testbit (names : list string) (i : Z) :
  Z.testbit (flag_union names) i = true <->
  exists n, n ∈ names /\ Z.testbit (flag_of n) i = true.
Proof.
  induction names as [|n names IH]; simpl.
  - rewrite Z.bits_0. split; [done|]. intros (n & Hin & _). by inversion Hin.
  - rewrite Z.lor_spec, orb_true_iff, IH. split.
    + intros [H | (m & Hin & H)]; [exists n | exists m]; split; try done.
      * by left.
      * by right.
    + intros (m & Hin & H). inversion Hin; subst; [by left | right; eauto].
Qed.

Lemma flag_union_subset (a b : list string) (i : Z) :
  (forall u, u ∈ map Str.upper a -> u ∈ map Str.upper b) ->
  Z.testbit (flag_union a) i = true -> Z.testbit (flag_union b) i = true.
Proof.
  intros Hsub. rewrite !flag_union_testbit. intros (n & Hin & Hbit).
  assert (Hu : Str.upper n ∈ map Str.upper b).
  { apply Hsub. apply list_elem_of_fmap. eauto. }
  apply list_elem_of_fmap in Hu as (m & Hm & Hinm).
  exists m. split; [done|]. unfold flag_of in *. by rewrite <- Hm.
Qed.

Lemma flag_union_same_set (l1 l2 : list string) :
  (forall u, u ∈ map Str.upper l1 <-> u ∈ map Str.upper l2) ->
  flag_union l1 = flag_union l2.
Proof.
  intros Hset. apply Z.bits_inj. intros i.
  destruct (Z.testbit (flag_union l1) i) eqn:H1,
           (Z.testbit (flag_union l2) i) eqn:H2; try done.
  - rewrite (flag_union_subset l1 l2) in H2; [done | apply Hset | done].
  - rewrite (flag_union_subset l2 l1) in H1; [done | apply Hset | done].
Qed.

Lemma flag_union_absorbs (names : list string) (n : string) :
  n ∈ names -> Z.land (flag_union names) (flag_of n) = flag_of n.
Proof.
  intros Hin. apply Z.bits_inj. intros i.
  rewrite Z.land_spec.
  destruct (Z.testbit (flag_of n) i) eqn:Hb; [|by rewrite andb_false_r].
  rewrite andb_true_r. apply flag_union_testbit. eauto.
Qed.

Lemma flags_loop_agree (names : list string) (v : Z) :
  Project4.flags_loop names v = Project5.flags_loop names v.
Proof.
  revert v. induction names as [|n names IH]; intros v; simpl; [done|].
  change Project4._FLAG_MAP with Project5._FLAG_MAP.
  destruct (Project5._FLAG_MAP !! Str.upper n); [apply IH | done].
Qed.

Lemma recognized_upper (n : string) : recognized (Str.upper n) <-> recognized n.
Proof. unfold recognized. by rewrite upper_idem. Qed.

Lemma recognized_names (n : string) :
  recognized n <->
  Str.upper n ∈
    ["IGNORECASE"; "MULTILINE"; "DOTALL"; "UNICODE"; "ASCII"; "VERBOSE"].
Proof.
  unfold recognized, Project5._FLAG_MAP.
  rewrite <- elem_of_dom, dom_list_to_map_L, elem_of_list_to_set.
  simpl. done.
Qed.

Section Flags.
Context {E : ReEngine}.

Lemma compile_pattern_recognized (pattern : string) (flags : list string) :
  Forall recognized flags ->
  Project5.compile_pattern pattern (Some flags) =
  try_re_compile pattern (flag_union flags).
Proof.
  intros Hall. unfold Project5.compile_pattern. simpl.
  by rewrite (flags_loop_recognized flags 0 Hall), Z.lor_0_l.
Qed.

(** C6. A flag list that holds a name outside the recognized set makes
    compilation fail with [InvalidFlag], naming an unknown entry of the
    list: [compile_pattern] raises it whatever the pattern is;
    [parse_questions_with_config] raises it for every text, so before any
    scan, when the list belongs to the outer rule, or to the inner rule
    once the outer rule has compiled; [compile_regex_from_config] raises
    it for a readable configuration whose pattern is a non-blank string. *)
Theorem unknown_flag_is_rejected (flags : list string) (name : string) :
  name ∈ flags -> ~ recognized name ->
  exists bad, bad ∈ flags /\ ~ recognized bad /\
    (forall pattern,
       Project5.compile_pattern pattern (Some flags) = Raise (InvalidFlag bad)) /\
    (forall text cfg,
       Project5.question_flags cfg = Some flags ->
       Project5.parse_questions_with_config text cfg = Raise (InvalidFlag bad)) /\
    (forall text cfg q_pat,
       Project5.compile_pattern (Project5.question_regex cfg)
         (Project5.question_flags cfg) = Ok q_pat ->
       Project5.option_flags cfg = Some flags ->
       Project5.parse_questions_with_config text cfg = Raise (InvalidFlag bad)) /\
    (forall config_path fields pat items,
       path_exists config_path = true ->
       path_is_file config_path = true ->
       read_json config_path = Loaded (JObj fields) ->
       fields !! "regex" = Some (JStr pat) ->
       Str.truthy (Str.strip pat) = true ->
       fields !! "flags" = Some (JArr items) ->
       str_items items = Some flags ->
       Project4.compile_regex_from_config config_path = Raise (InvalidFlag bad)).
Proof.
  intros Hin Hname.
  assert (Hnot : ~ Forall recognized flags).
  { intros Hall. apply Hname. by apply (proj1 (Forall_forall _ _) Hall). }
  destruct (flags_loop_unknown flags 0 Hnot) as (bad & Hbin & Hbad & Heq).
  exists bad. split; [done|]. split; [done|].
  assert (Hcompile : forall pattern,
    Project5.compile_pattern pattern (Some flags) = Raise (InvalidFlag bad)).
  { intros pattern. unfold Project5.compile_pattern. simpl. by rewrite Heq. }
  split; [done|]. split; [|split].
  - intros text cfg Hq. unfold Project5.parse_questions_with_config.
    by rewrite Hq, Hcompile.
  - intros text cfg q_pat Hq Ho. unfold Project5.parse_questions_with_config.
    rewrite Hq. simpl. by rewrite Ho, Hcompile.
  - intros config_path fields pat items Hex Hfile Hread Hre Hpat Hfl Hitems.
    unfold Project4.compile_regex_from_config.
    rewrite Hex, Hfile, Hread. simpl. rewrite Hre. simpl. rewrite Hpat. simpl.
    rewrite Hfl. simpl.
    destruct items as [|j items].
    { simpl in Hitems. injection Hitems as <-. by inversion Hin. }
    simpl json_truthy. cbv iota. rewrite Hitems.
    by rewrite flags_loop_agree, Heq.
Qed.

(** C7. Two lists of recognized flag names that hold the same set of
    names, read without regard to case, order or repetition, give the
    same flag value, the bitwise union of the named flags, and so the
    same result of [compile_pattern] for every pattern; an absent and an
    empty list both compile with the flag value 0. *)
Theorem flags_combine_as_a_set (pattern : string) (l1 l2 : list string) :
  Forall recognized l1 -> Forall recognized l2 ->
  (forall u, u ∈ map Str.upper l1 <-> u ∈ map Str.upper l2) ->
  Project5.flags_loop l1 0 = Ok (flag_union l1) /\
  Project5.flags_loop l2 0 = Ok (flag_union l1) /\
  (forall i, Z.testbit (flag_union l1) i = true <->
             exists n, n ∈ l1 /\ Z.testbit (flag_of n) i = true) /\
  Project5.compile_pattern pattern (Some l1) =
    Project5.compile_pattern pattern (Some l2) /\
  Project5.compile_pattern pattern (Some l1) =
    try_re_compile pattern (flag_union l1) /\
  Project5.compile_pattern pattern None = try_re_compile pattern 0 /\
  Project5.compile_pattern pattern (Some []) = try_re_compile pattern 0.
Proof.
  intros H1 H2 Hset.
  pose proof (flag_union_same_set l1 l2 Hset) as Heq.
  rewrite (flags_loop_recognized l1 0 H1), (flags_loop_recognized l2 0 H2).
  rewrite !Z.lor_0_l, <- Heq.
  split; [done|]. split; [done|]. split; [apply flag_union_testbit|].
  rewrite !compile_pattern_recognized by done. rewrite <- Heq.
  repeat split; done.
Qed.

(** C10. Flag names are read without regard to case: the flag loop
    accepts a list exactly when the upper-case form of every entry is one
    of IGNORECASE, MULTILINE, DOTALL, UNICODE, ASCII, VERBOSE; an accepted
    list compiles with the union of the flags its entries stand for, each
    of them set, and compiles as its upper-case spelling does; the three
    spellings of IGNORECASE compile alike; the loop of Project4 is the
    same function. *)
Theorem flag_names_ignore_case (pattern : string) (flags : list string) :
  (is_ok (Project5.flags_loop flags 0) = true <-> Forall recognized flags) /\
  (forall n, recognized n <->
     Str.upper n ∈
       ["IGNORECASE"; "MULTILINE"; "DOTALL"; "UNICODE"; "ASCII"; "VERBOSE"]) /\
  (Forall recognized flags ->
     Project5.compile_pattern pattern (Some flags) =
       try_re_compile pattern (flag_union flags) /\
     Project5.compile_pattern pattern (Some (map Str.upper flags)) =
       Project5.compile_pattern pattern (Some flags) /\
     forall n, n ∈ flags ->
       Project5._FLAG_MAP !! Str.upper n = Some (flag_of n) /\
       Z.land (flag_union flags) (flag_of n) = flag_of n) /\
  Project5.compile_pattern pattern (Some ["ignorecase"]) =
    try_re_compile pattern re.IGNORECASE /\
  Project5.compile_pattern pattern (Some ["IgnoreCase"]) =
    try_re_compile pattern re.IGNORECASE /\
  Project5.compile_pattern pattern (Some ["IGNORECASE"]) =
    try_re_compile pattern re.IGNORECASE /\
  Project4.flags_loop flags 0 = Project5.flags_loop flags 0.
Proof.
  split; [|split; [|split]].
  - split.
    + intros Hok. destruct (decide (Forall recognized flags)) as [|Hnot]; [done|].
      destruct (flags_loop_unknown flags 0 Hnot) as (bad & _ & _ & Heq).
      by rewrite Heq in Hok.
    + intros Hall. by rewrite (flags_loop_recognized flags 0 Hall).
  - apply recognized_names.
  - intros Hall. split; [by apply compile_pattern_recognized|]. split.
    + assert (Hup : Forall recognized (map Str.upper flags)).
      { apply Forall_forall. intros u Hu.
        apply list_elem_of_fmap in Hu as (n & -> & Hn).
        apply recognized_upper. by apply (proj1 (Forall_forall _ _) Hall). }
      rewrite !compile_pattern_recognized by done. f_equal.
      apply flag_union_same_set. intros u.
      rewrite <- list_fmap_compose.
      rewrite !list_elem_of_fmap. split.
      * intros (n & -> & Hn). exists n. split; [|done]. simpl. apply upper_idem.
      * intros (n & -> & Hn). exists n. split; [|done]. simpl.
        symmetry. apply upper_idem.
    + intros n Hn. split; [|by apply flag_union_absorbs].
      destruct (proj1 (Forall_forall _ _) Hall n Hn) as [f Hf].
      unfold flag_of. by rewrite Hf.
  - split; [reflexivity|]. split; [reflexivity|]. split; [reflexivity|].
    apply flags_loop_agree.
Qed.

End Flags.

Lemma unknown_flag_is_rejected_witness :
  exists bad, bad ∈ ["IGNORECASE"; "BOGUS"] /\
    forall pattern,
      Project5.compile_pattern (E := ref_engine) pattern
        (Some ["IGNORECASE"; "BOGUS"]) = Raise (InvalidFlag bad).
Proof.
  destruct (unknown_flag_is_rejected (E := ref_engine)
              ["IGNORECASE"; "BOGUS"] "BOGUS") as (bad & Hin & _ & H & _).
  - right; left.
  - unfold recognized. vm_compute. intros [x Hx]. discriminate Hx.
  - exists bad. split; [exact Hin | exact H].
Defined.

Lemma flags_combine_as_a_set_witness :
  Project5.compile_pattern (E := ref_engine) "q\d"
    (Some ["ignorecase"; "DOTALL"; "IgnoreCase"]) =
  Project5.compile_pattern (E := ref_engine) "q\d"
    (Some ["dotall"; "IGNORECASE"]).
Proof.
  apply (flags_combine_as_a_set (E := ref_engine) "q\d"
           ["ignorecase"; "DOTALL"; "IgnoreCase"] ["dotall"; "IGNORECASE"]).
  - repeat constructor; vm_compute; eauto.
  - repeat constructor; vm_compute; eauto.
  - intros u. cbn [map Str.upper].
    change (Str.upper "ignorecase") with "IGNORECASE".
    change (Str.upper "IgnoreCase") with "IGNORECASE".
    change (Str.upper "DOTALL") with "DOTALL".
    change (Str.upper "dotall") with "DOTALL".
    change (Str.upper "IGNORECASE") with "IGNORECASE".
    rewrite !elem_of_cons, !elem_of_nil. tauto.
Defined.

Example ignorecase_runs :
  match Project5.compile_pattern (E := ref_engine) "q\d" (Some ["ignorecase"]) with
  | Ok p => map group0 (finditer (H := ref_engine) p "Q1 q2 x3") = ["Q1"; "q2"]
  | Raise _ => False
  end.
Proof. vm_compute. done. Qed.

(** * The loops against the specification's segmentation *)

Lemma strip_value_extracted (name : string) (m : Match) :
  Project5.strip_value (Project5.group_or_match name m) =
  match extracted_text name m with
  | Some t => Ok t
  | None => Raise NoneType_strip
  end.
Proof.
  unfold Project5.group_or_match, extracted_text.
  destruct (groupdict m !! name) as [[g|]|]; reflexivity.
Qed.

Lemma options_loop_refines (ms : list Match) (acc : list string) :
  Project5.options_loop ms acc =
  match mapM (extracted_text "option") ms with
  | Some texts => Ok (acc ++ List.filter Str.truthy texts)%list
  | None => Raise NoneType_strip
  end.
Proof.
  revert acc. induction ms as [|m ms IH]; intros acc.
  - simpl. by rewrite app_nil_r.
  - cbn [Project5.options_loop]. rewrite strip_value_extracted.
    cbn [mapM]. destruct (extracted_text "option" m) as [t|]; [|done].
    cbn. rewrite IH.
    destruct (mapM (extracted_text "option") ms) as [texts|]; [|done].
    cbn. destruct (Str.truthy t); [|done].
    by rewrite <- app_assoc.
Qed.

Lemma extracted_text_trimmed (name : string) (m : Match) (t : string) :
  extracted_text name m = Some t -> Str.strip t = t.
Proof.
  unfold extracted_text.
  destruct (groupdict m !! name) as [[g|]|]; intros [= <-]; apply strip_idem.
Qed.

Lemma groupdict_lookup (m : Match) (name g : string) :
  groupdict m !! name = Some (Some g) ->
  exists sp, g = span_text (m_string m) sp.
Proof.
  unfold groupdict. intros H.
  apply elem_of_list_to_map_2 in H.
  apply list_elem_of_fmap in H as ([k v] & Heq & _).
  simpl in Heq. injection Heq as _ Hv.
  destruct v as [sp|]; [|done]. exists sp. simpl in Hv. congruence.
Qed.

Lemma extracted_text_occurs (name : string) (m : Match) (t : string) :
  extracted_text name m = Some t -> Str.occurs_in t (m_string m).
Proof.
  unfold extracted_text.
  destruct (groupdict m !! name) as [[g|]|] eqn:Hg; intros [= <-].
  - destruct (groupdict_lookup m name g Hg) as [sp ->].
    eapply occurs_in_trans; [apply strip_occurs | apply slice_occurs].
  - eapply occurs_in_trans; [apply strip_occurs | apply slice_occurs].
Qed.

Lemma filter_truthy_nonempty (texts : list string) :
  Forall (fun f => f <> "") (List.filter Str.truthy texts).
Proof.
  apply Forall_forall. intros f Hf.
  apply list_elem_of_In, filter_In in Hf as [_ Hf].
  by apply truthy_spec.
Qed.

Section Blocks.
Context {E : ReEngine}.

Lemma finditer_string (p : Pattern) (s : string) (m : Match) :
  m ∈ finditer p s -> m_string m = s.
Proof.
  unfold finditer. intros H.
  by apply list_elem_of_fmap in H as (r & -> & _).
Qed.

Lemma finditer_length (p : Pattern) (s : string) :
  length (finditer p s) = length (re_scan p s).
Proof. unfold finditer. apply length_map. Qed.

Lemma options_loop_fragments (o_pat : Pattern) (block : string) :
  Project5.options_loop (finditer o_pat block) [] =
  match option_fragments o_pat block with
  | Some opts => Ok opts
  | None => Raise NoneType_strip
  end.
Proof.
  rewrite options_loop_refines. unfold option_fragments.
  by destruct (mapM _ _).
Qed.

Lemma question_step (o_pat : Pattern) (m : Match) {A}
    (k : Project5.QA -> outcome A) :
  (q_text ← Project5.strip_value (Project5.group_or_match "question" m);
   opts ← Project5.options_loop (finditer o_pat (group0 m)) [];
   k (Project5.MkQA q_text opts)) =
  match text_block o_pat m with
  | Some b => k b
  | None => Raise NoneType_strip
  end.
Proof.
  rewrite strip_value_extracted, options_loop_fragments. unfold text_block.
  destruct (extracted_text "question" m) as [q|]; cbn; [|done].
  by destruct (option_fragments o_pat (group0 m)).
Qed.

Lemma questions_loop_refines (o_pat : Pattern) (ms : list Match)
    (acc : list Project5.QA) :
  Project5.questions_loop o_pat ms acc =
  match mapM (text_block o_pat) ms with
  | Some blocks => Ok (acc ++ blocks)%list
  | None => Raise NoneType_strip
  end.
Proof.
  revert acc. induction ms as [|m ms IH]; intros acc.
  - simpl. by rewrite app_nil_r.
  - cbn [Project5.questions_loop].
    rewrite (question_step o_pat m
               (fun b => Project5.questions_loop o_pat ms (acc ++ [b]))).
    cbn [mapM]. destruct (text_block o_pat m) as [b|]; cbn; [|done].
    rewrite IH.
    destruct (mapM (text_block o_pat) ms) as [blocks|]; cbn; [|done].
    by rewrite <- app_assoc.
Qed.

Lemma parse_refines (text : string) (cfg : Project5.Cfg) (q_pat o_pat : Pattern) :
  Project5.compile_pattern (Project5.question_regex cfg)
    (Project5.question_flags cfg) = Ok q_pat ->
  Project5.compile_pattern (Project5.option_regex cfg)
    (Project5.option_flags cfg) = Ok o_pat ->
  Project5.parse_questions_with_config text cfg =
  match segment q_pat o_pat text with
  | Some blocks => Ok blocks
  | None => Raise NoneType_strip
  end.
Proof.
  intros Hq Ho. unfold Project5.parse_questions_with_config.
  rewrite Hq. cbn. rewrite Ho. cbn.
  rewrite questions_loop_refines. unfold segment.
  by destruct (mapM _ _).
Qed.

End Blocks.

Section Segmentation.
Context {E : ReEngine}.

Lemma option_fragments_total (o_pat : Pattern) (block : string) :
  Forall (fun om => groupdict om !! "option" <> Some None)
         (finditer o_pat block) ->
  is_Some (option_fragments o_pat block).
Proof.
  intros Hall. unfold option_fragments.
  apply fmap_is_Some, mapM_is_Some.
  eapply Forall_impl; [exact Hall|].
  intros om Hom. simpl in *. unfold extracted_text.
  destruct (groupdict om !! "option") as [[g|]|];
    [by eexists | done | by eexists].
Qed.

Lemma text_block_total (o_pat : Pattern) (m : Match) :
  groupdict m !! "question" <> Some None ->
  Forall (fun om => groupdict om !! "option" <> Some None)
         (finditer o_pat (group0 m)) ->
  is_Some (text_block o_pat m).
Proof.
  intros Hq Ho. unfold text_block.
  destruct (option_fragments_total _ _ Ho) as [opts ->].
  unfold extracted_text.
  destruct (groupdict m !! "question") as [[g|]|]; cbn;
    [by eexists | done | by eexists].
Qed.

Lemma text_block_question (o_pat : Pattern) (m : Match) (b : Project5.QA) :
  text_block o_pat m = Some b ->
  extracted_text "question" m = Some (Project5.question b) /\
  option_fragments o_pat (group0 m) = Some (Project5.options b).
Proof.
  unfold text_block.
  destruct (extracted_text "question" m) as [q|]; cbn; [|done].
  destruct (option_fragments o_pat (group0 m)) as [opts|]; cbn; [|done].
  by intros [= <-].
Qed.


(** C9. When a match of the outer rule has its declared group
    "question" unset, or an inner match of its block has its declared
    group "option" unset, [parse_questions_with_config] raises the
    exception of [None.strip()].  The whole match is the text only when
    the group is not declared; a declared group that is unset yields
    [None], and stripping it raises. *)
Theorem unset_group_raises (text : string) (cfg : Project5.Cfg)
    (q_pat o_pat : Pattern) (m : Match) :
  Project5.compile_pattern (Project5.question_regex cfg)
    (Project5.question_flags cfg) = Ok q_pat ->
  Project5.compile_pattern (Project5.option_regex cfg)
    (Project5.option_flags cfg) = Ok o_pat ->
  m ∈ finditer q_pat text ->
  (groupdict m !! "question" = Some None \/
   exists om, om ∈ finditer o_pat (group0 m) /\
              groupdict om !! "option" = Some None) ->
  Project5.parse_questions_with_config text cfg = Raise NoneType_strip /\
  (forall (name : string) (x : Match),
     (groupdict x !! name = None ->
        Project5.group_or_match name x = Some (group0 x)) /\
     (groupdict x !! name = Some None ->
        Project5.group_or_match name x = None /\
        Project5.strip_value (Project5.group_or_match name x) =
          Raise NoneType_strip) /\
     (groupdict x !! name = None <-> name ∉ (m_named (m_raw x)).*1)).
Proof.
  intros Hq Ho Hin Hnone. split.
  - rewrite (parse_refines text cfg q_pat o_pat Hq Ho). unfold segment.
    assert (Hex : mapM (text_block o_pat) (finditer q_pat text) = None).
    { apply mapM_None, Exists_exists. exists m. split; [done|].
      unfold text_block. destruct Hnone as [Hn | (om & Hom & Hn)].
      - unfold extracted_text at 1. by rewrite Hn.
      - assert (Hfr : option_fragments o_pat (group0 m) = None).
        { unfold option_fragments. apply fmap_None, mapM_None, Exists_exists.
          exists om. split; [done|]. unfold extracted_text. by rewrite Hn. }
        rewrite Hfr. by destruct (extracted_text "question" m). }
    by rewrite Hex.
  - intros name x. unfold Project5.group_or_match.
    split; [by intros ->|]. split; [by intros ->|].
    unfold groupdict. rewrite <- not_elem_of_list_to_map.
    by rewrite <- list_fmap_compose.
Qed.

(** C3. In a result of [parse_questions_with_config] the blocks pair up
    with the matches of the outer rule, and the options of a block are
    what the inner loop yields on the text of that match alone: every
    option is the extracted text of an inner match whose scanned string
    is the block, and it occurs in the block. *)
Theorem options_come_from_the_block (text : string) (cfg : Project5.Cfg)
    (q_pat o_pat : Pattern) (blocks : list Project5.QA) :
  Project5.compile_pattern (Project5.question_regex cfg)
    (Project5.question_flags cfg) = Ok q_pat ->
  Project5.compile_pattern (Project5.option_regex cfg)
    (Project5.option_flags cfg) = Ok o_pat ->
  Project5.parse_questions_with_config text cfg = Ok blocks ->
  Forall2 (fun m b =>
             group0 m = Str.slice text (m_start (m_raw m)) (m_end (m_raw m)) /\
             Project5.options_loop (finditer o_pat (group0 m)) [] =
               Ok (Project5.options b) /\
             forall f, f ∈ Project5.options b ->
               exists om, om ∈ finditer o_pat (group0 m) /\
                          m_string om = group0 m /\
                          extracted_text "option" om = Some f /\
                          Str.occurs_in f (group0 m))
          (finditer q_pat text) blocks.
Proof.
  intros Hq Ho. rewrite (parse_refines text cfg q_pat o_pat Hq Ho).
  unfold segment.
  destruct (mapM (text_block o_pat) (finditer q_pat text)) as [bs|] eqn:Hbs;
    [|done].
  intros [= <-]. apply mapM_Some_1 in Hbs.
  assert (Hboth : Forall2 (fun m b => m ∈ finditer q_pat text /\
                                      text_block o_pat m = Some b)
                          (finditer q_pat text) bs).
  { apply Forall2_same_length_lookup. split; [by eapply Forall2_length|].
    intros i m b Hm Hb. split; [by eapply list_elem_of_lookup_2|].
    exact (Forall2_lookup_lr _ _ _ _ _ _ Hbs Hm Hb). }
  eapply Forall2_impl; [exact Hboth|].
  intros m b [Hm Hb]. cbn beta.
  split; [by rewrite <- (finditer_string q_pat text m Hm)|].
  apply text_block_question in Hb as [_ Hopts].
  split; [by rewrite options_loop_fragments, Hopts|].
  intros f Hf. unfold option_fragments in Hopts.
  apply fmap_Some in Hopts as (texts & Htexts & Heq).
  rewrite Heq in Hf. apply list_elem_of_In, filter_In in Hf as [Hf _].
  apply list_elem_of_In in Hf.
  apply mapM_Some_1 in Htexts.
  destruct (proj1 (list_elem_of_lookup _ _) Hf) as [i Hi].
  destruct (Forall2_lookup_r _ _ _ _ _ Htexts Hi) as (om & Hom & Hext).
  exists om. split; [by eapply list_elem_of_lookup_2|].
  assert (Hs : m_string om = group0 m).
  { eapply finditer_string. by eapply list_elem_of_lookup_2. }
  split; [done|]. split; [done|].
  rewrite <- Hs. by eapply extracted_text_occurs.
Qed.

Lemma parse_ok_inv (text : string) (cfg : Project5.Cfg)
    (blocks : list Project5.QA) :
  Project5.parse_questions_with_config text cfg = Ok blocks ->
  exists q_pat o_pat,
    Project5.compile_pattern (Project5.question_regex cfg)
      (Project5.question_flags cfg) = Ok q_pat /\
    Project5.compile_pattern (Project5.option_regex cfg)
      (Project5.option_flags cfg) = Ok o_pat /\
    segment q_pat o_pat text = Some blocks.
Proof.
  intros Hparse.
  destruct (Project5.compile_pattern (Project5.question_regex cfg)
              (Project5.question_flags cfg)) as [q_pat|e] eqn:Hq.
  2:{ unfold Project5.parse_questions_with_config in Hparse.
      by rewrite Hq in Hparse. }
  destruct (Project5.compile_pattern (Project5.option_regex cfg)
              (Project5.option_flags cfg)) as [o_pat|e] eqn:Ho.
  2:{ unfold Project5.parse_questions_with_config in Hparse.
      rewrite Hq in Hparse. cbn in Hparse. by rewrite Ho in Hparse. }
  exists q_pat, o_pat. split; [done|]. split; [done|].
  rewrite (parse_refines text cfg q_pat o_pat Hq Ho) in Hparse.
  destruct (segment q_pat o_pat text); by inversion Hparse.
Qed.




End Segmentation.

(** * The reference engine at work *)

Example quiz_parse :
  Project5.parse_questions_with_config (E := ref_engine) quiz_text quiz_cfg =
  Ok [Project5.MkQA "What is 2+2? (A) 3 (B) 4" ["3"; "4"];
      Project5.MkQA "Capital of France? (A) Paris" ["Paris"]].
Proof. vm_compute. reflexivity. Qed.



Lemma unset_group_raises_witness :
  Project5.parse_questions_with_config (E := ref_engine) "b" alt_cfg =
    Raise NoneType_strip.
Proof.
  apply (unset_group_raises (E := ref_engine) "b" alt_cfg
           (pattern_of "(?P<question>a)|b") (pattern_of "x")
           (MkMatch "b" (RawMatch 0 1 [("question", None)]))).
  - vm_compute. reflexivity.
  - vm_compute. reflexivity.
  - vm_compute. left.
  - left. vm_compute. reflexivity.
Defined.

Lemma options_come_from_the_block_witness :
  Forall2 (fun m b => forall f, f ∈ Project5.options b ->
                                Str.occurs_in f (group0 m))
    (finditer (H := ref_engine)
       (pattern_of (Project5.question_regex quiz_cfg)) quiz_text)
    [Project5.MkQA "What is 2+2? (A) 3 (B) 4" ["3"; "4"];
     Project5.MkQA "Capital of France? (A) Paris" ["Paris"]].
Proof.
  eapply Forall2_impl.
  - apply (options_come_from_the_block (E := ref_engine) quiz_text quiz_cfg
             (pattern_of (Project5.question_regex quiz_cfg))
             (pattern_of (Project5.option_regex quiz_cfg))).
    + vm_compute. reflexivity.
    + vm_compute. reflexivity.
    + vm_compute. reflexivity.
  - intros m b (_ & _ & H) f Hf.
    destruct (H f Hf) as (om & _ & _ & _ & Hocc). exact Hocc.
Defined.

(** * Configuration loading *)

Lemma load_regex_config_not_found (cfg_path : ConfigFile) :
  path_exists cfg_path = false \/ path_is_file cfg_path = false ->
  Project5.load_regex_config cfg_path = Raise (ConfigNotFound cfg_path).
Proof.
  unfold Project5.load_regex_config. intros [-> | ->]; [done|].
  by rewrite orb_true_r.
Qed.

Lemma load_regex_config_unparsed (cfg_path : ConfigFile) (exc : string) :
  path_exists cfg_path = true -> path_is_file cfg_path = true ->
  read_json cfg_path = LoadRaises exc ->
  Project5.load_regex_config cfg_path = Raise (ConfigMalformed exc).
Proof.
  unfold Project5.load_regex_config. by intros -> -> ->.
Qed.

Lemma load_regex_config_dict (cfg_path : ConfigFile)
    (fields : gmap string json) :
  path_exists cfg_path = true -> path_is_file cfg_path = true ->
  read_json cfg_path = Loaded (JObj fields) ->
  Project5.load_regex_config cfg_path =
    if negb (nonblank_str (default JNull (fields !! "question_regex")))
    then Raise (ConfigIncomplete "question_regex")
    else if negb (nonblank_str (default JNull (fields !! "option_regex")))
    then Raise (ConfigIncomplete "option_regex")
    else
      data1 ← py_setdefault (JObj fields) "question_flags" (JArr []);
      py_setdefault data1 "option_flags" (JArr []).
Proof.
  unfold Project5.load_regex_config. by intros -> -> ->.
Qed.

Lemma load_regex_config_not_a_dict (cfg_path : ConfigFile) (data : json) :
  path_exists cfg_path = true -> path_is_file cfg_path = true ->
  read_json cfg_path = Loaded data ->
  (forall fields, data <> JObj fields) ->
  Project5.load_regex_config cfg_path =
    Raise (AttributeError
             ("'" +:+ type_name data +:+ "' object has no attribute 'get'")).
Proof.
  unfold Project5.load_regex_config. intros -> -> -> Hnot.
  destruct data; try done. by destruct (Hnot fields).
Qed.

(** C8. For a configuration file whose JSON document is an array,
    [load_regex_config] raises a bare [AttributeError]: none of
    [ConfigNotFound], [ConfigMalformed], [ConfigIncomplete]. *)
Theorem load_regex_config_array_document :
  Project5.load_regex_config array_config =
    Raise (AttributeError "'list' object has no attribute 'get'") /\
  Project5.load_regex_config array_config <> Raise (ConfigNotFound array_config) /\
  (forall exc,
     Project5.load_regex_config array_config <> Raise (ConfigMalformed exc)) /\
  (forall key,
     Project5.load_regex_config array_config <> Raise (ConfigIncomplete key)).
Proof. repeat split; intros; discriminate. Qed.

(** * Validation and storage of a question *)

Section Storage.
Import Project8.

(** ** Validation of a request body *)

Lemma validated_errors (errors : list verror) (q : QuestionIn) :
  errors <> [] -> validated errors q = inl errors.
Proof. by destruct errors. Qed.

Lemma must_have_two_spec (v : list string) :
  _must_have_at_least_two v =
  if decide (length v < 2)%nat
  then Raise (ValueError "MCQ requires at least two options.")
  else Ok v.
Proof.
  destruct v as [|a [|b v]]; [done | done |].
  unfold _must_have_at_least_two. cbn [negb orb].
  assert (H : (Z.of_nat (length (a :: b :: v)) <? 2) = false).
  { apply Z.ltb_ge. simpl length. lia. }
  rewrite H. case_decide as Hlen; [|done]. simpl in Hlen. lia.
Qed.

Lemma parse_mcq_body (body : Body) :
  b_type body = Some "mcq" ->
  parse_QuestionIn body =
  match parse_MCQIn body with
  | inr q => Ok q
  | inl e3 =>
      Raise (RequestValidationError
               ((base_errors body ++ [wrong_literal "type" "subjective"])
                ++ (base_errors body ++ [wrong_literal "type" "true_false"])
                ++ e3))
  end.
Proof.
  intros Hty. unfold parse_QuestionIn, parse_SubjectiveIn, parse_TrueFalseIn.
  rewrite Hty. cbn [literal_type String.eqb Ascii.eqb Bool.eqb].
  rewrite !validated_errors; [done | |]; by destruct (base_errors body).
Qed.

(** ** The session *)

Lemma flush_one_keeps_columns (refuses : engine) (obj obj' : QuestionBase)
    (s s' : Session) :
  flush_one refuses obj s = (Ok obj', s') ->
  row obj' = row obj /\ ext obj' = ext obj /\ id obj' = Some (sequence s).
Proof.
  unfold flush_one.
  destruct (refuses (INSERT_questions _ _)); [done|].
  destruct (refuses (INSERT_extension _ _)); [done|].
  by intros [= <- <-].
Qed.

Lemma flush_all_keeps_columns (refuses : engine) (objs done flushed : list QuestionBase)
    (s s' : Session) :
  flush_all refuses objs done s = (Ok flushed, s') ->
  exists added,
    flushed = (done ++ added)%list /\
    Forall2 (fun o o' => row o' = row o /\ ext o' = ext o) objs added.
Proof.
  revert done s. induction objs as [|obj objs IH]; intros done s; simpl.
  - intros [= <- <-]. exists []. by rewrite app_nil_r.
  - destruct (flush_one refuses obj s) as [[obj'|e] s1] eqn:Hone; [|done].
    intros Hall. destruct (IH _ _ Hall) as (added & -> & Hadded).
    exists (obj' :: added). rewrite <- app_assoc. split; [done|].
    constructor; [|done].
    by destruct (flush_one_keeps_columns _ _ _ _ _ Hone) as (? & ? & _).
Qed.

Lemma add_keeps_columns (refuses : engine) (db db' : Session)
    (q : QuestionIn) (obj : QuestionBase) :
  QuestionRepository.add refuses db q = (Ok obj, db') ->
  row obj = row (construct q) /\ ext obj = ext (construct q).
Proof.
  unfold QuestionRepository.add, db_flush.
  destruct (flush_all _ _ _ _) as [[flushed|e] s1] eqn:Hall; [|done].
  intros [= <- <-].
  destruct (flush_all_keeps_columns _ _ _ _ _ _ Hall) as (added & -> & Hadded).
  simpl in Hadded. apply Forall2_app_inv_l in Hadded
    as (a1 & a2 & _ & Hlast & ->).
  inversion Hlast as [|? o' ? l' Ho Hnil]; subst. inversion Hnil; subst.
  rewrite app_nil_l, last_last. done.
Qed.


(** C1 (amended). For a body of type "mcq" that carries an options
    list: with fewer than two options validation fails, the report holds
    [InsufficientOptions], and the route returns it with the session
    untouched, no object having been built; with at least two options and
    common fields that pass their own checks, validation yields the MCQ
    payload with the list unchanged, and the object the repository builds
    and returns stores that list as its answer options. *)
Theorem mcq_needs_two_options (refuses : engine) (body : Body) (db : Session)
    (opts : list string) :
  b_type body = Some "mcq" ->
  b_answer_options body = Some opts ->
  ((length opts < 2)%nat ->
     exists errors,
       parse_QuestionIn body = Raise (RequestValidationError errors) /\
       InsufficientOptions ∈ errors /\
       post_questions refuses body db =
         (Raise (RequestValidationError errors), db)) /\
  ((2 <= length opts)%nat -> base_errors body = [] ->
     parse_QuestionIn body = Ok (MCQIn (base_of body) opts) /\
     r_answer_options (row (construct (MCQIn (base_of body) opts)))
       = Some opts /\
     post_questions refuses body db =
       create_question refuses (MCQIn (base_of body) opts) db /\
     forall obj db',
       QuestionRepository.add refuses db (MCQIn (base_of body) opts)
         = (Ok obj, db') ->
       r_type (row obj) = "mcq" /\ r_answer_options (row obj) = Some opts).
Proof.
  intros Hty Hopts. split.
  - intros Hlen.
    assert (Hmcq : exists e3, parse_MCQIn body = inl e3 /\
                              InsufficientOptions ∈ e3).
    { unfold parse_MCQIn, answer_options_errors.
      rewrite Hopts, must_have_two_spec, decide_True by done.
      eexists. split.
      - apply validated_errors. rewrite !app_assoc.
        intros H. by apply app_nil in H as [_ H].
      - rewrite !elem_of_app. right; right. by left. }
    destruct Hmcq as (e3 & He3 & Hin).
    eexists. split; [|split].
    + rewrite (parse_mcq_body body Hty), He3. reflexivity.
    + rewrite !elem_of_app. by right; right.
    + unfold post_questions. by rewrite (parse_mcq_body body Hty), He3.
  - intros Hlen Hbase.
    assert (Hparse : parse_QuestionIn body = Ok (MCQIn (base_of body) opts)).
    { rewrite (parse_mcq_body body Hty).
      unfold parse_MCQIn, answer_options_errors.
      rewrite Hopts, must_have_two_spec, decide_False by lia.
      rewrite Hbase, Hty. reflexivity. }
    split; [done|]. split; [done|]. split.
    + unfold post_questions. by rewrite Hparse.
    + intros obj db' Hadd.
      destruct (add_keeps_columns _ _ _ _ _ Hadd) as [-> _]. done.
Qed.

Lemma mcq_two_options_counterexample :
  b_type unnamed_subject = Some "mcq" /\
  b_answer_options unnamed_subject = Some ["A"; "B"] /\
  (forall q, parse_QuestionIn unnamed_subject <> Ok q) /\
  post_questions accepts_all unnamed_subject fresh_session =
    (Raise (RequestValidationError
              [too_short "subject_name"; wrong_literal "type" "subjective";
               too_short "subject_name"; wrong_literal "type" "true_false";
               too_short "subject_name"]), fresh_session).
Proof. repeat split. intros q H. vm_compute in H. discriminate H. Qed.

Lemma mcq_needs_two_options_witness :
  (exists errors,
     post_questions accepts_all (pick_one ["A"]) fresh_session =
       (Raise (RequestValidationError errors), fresh_session) /\
     InsufficientOptions ∈ errors) /\
  parse_QuestionIn (pick_one ["A"; "B"]) =
    Ok (MCQIn (base_of (pick_one ["A"; "B"])) ["A"; "B"]).
Proof.
  split.
  - destruct (mcq_needs_two_options accepts_all (pick_one ["A"]) fresh_session
                ["A"] eq_refl eq_refl) as [H _].
    destruct H as (errors & _ & Hin & Hpost); [simpl; lia|].
    exists errors. split; [exact Hpost | exact Hin].
  - destruct (mcq_needs_two_options accepts_all (pick_one ["A"; "B"])
                fresh_session ["A"; "B"] eq_refl eq_refl) as [_ H].
    destruct H as (Hparse & _); [simpl; lia | reflexivity |].
    exact Hparse.
Defined.



End Storage.

(** * More properties of the services *)

(** * File names *)

Lemma replace_char_length (old new : ascii) (s : string) :
  String.length (Text.replace_char old new s) = String.length s.
Proof. induction s as [|c s IH]; simpl; [done | by rewrite IH]. Qed.

Lemma replace_char_removes (old new : ascii) (s : string) :
  old <> new -> Text.has_char old (Text.replace_char old new s) = false.
Proof.
  intros Hne. induction s as [|c s IH]; simpl; [done|].
  rewrite IH, orb_false_r.
  destruct (Ascii.eqb c old) eqn:Hc; [|done].
  apply Ascii.eqb_neq. congruence.
Qed.

Lemma replace_char_keeps_absent (c old new : ascii) (s : string) :
  c <> new -> Text.has_char c s = false ->
  Text.has_char c (Text.replace_char old new s) = false.
Proof.
  intros Hne. induction s as [|d s IH]; simpl; [done|].
  intros [Hd Hs]%orb_false_elim. rewrite (IH Hs), orb_false_r.
  destruct (Ascii.eqb d old); [|done].
  apply Ascii.eqb_neq. congruence.
Qed.

Lemma replace_char_absent (old new : ascii) (s : string) :
  Text.has_char old s = false -> Text.replace_char old new s = s.
Proof.
  induction s as [|d s IH]; simpl; [done|].
  intros [Hd Hs]%orb_false_elim. by rewrite Hd, (IH Hs).
Qed.

(** X1. Whatever [Path(name).name] returns, the name [safe_filename]
    gives back holds neither a slash nor a backslash and is as long as
    that final component; a component without separators comes back
    unchanged. *)
Theorem safe_filename_has_no_separator (path_name : string -> string)
    (name : string) :
  let r := Project5Pdf.safe_filename path_name name in
  Text.has_char Project5Pdf.slash r = false /\
  Text.has_char Project5Pdf.backslash r = false /\
  String.length r = String.length (path_name name) /\
  (Text.has_char Project5Pdf.slash (path_name name) = false ->
   Text.has_char Project5Pdf.backslash (path_name name) = false ->
   r = path_name name).
Proof.
  unfold Project5Pdf.safe_filename. cbn zeta. split; [|split; [|split]].
  - by apply replace_char_removes.
  - apply replace_char_keeps_absent; [done|]. by apply replace_char_removes.
  - by rewrite !replace_char_length.
  - intros Hs Hb. rewrite (replace_char_absent _ _ _ Hb).
    by apply replace_char_absent.
Qed.

(** * Pages *)

Lemma load_pages_range (pages : list string) (i n : nat) :
  (i + n <= length pages)%nat ->
  mapM (Project5Pdf.load_page pages) (seq i n) = Ok (take n (drop i pages)).
Proof.
  revert i. induction n as [|n IH]; intros i Hlen; [done|].
  destruct (pages !! i) as [t|] eqn:Ht.
  2:{ apply lookup_ge_None in Ht. lia. }
  assert (Hl : Project5Pdf.load_page pages i = Ok t).
  { unfold Project5Pdf.load_page. by rewrite Ht. }
  cbn [seq mapM]. rewrite Hl. cbn. rewrite IH by lia. cbn.
  by rewrite (drop_S _ _ _ Ht).
Qed.

(** X2. With the defaults applied (start 1, end the page count, and 0
    read as no bound), [extract_pdf_text_range] accepts a range exactly
    when 1 <= start <= end <= page count; it then returns the texts of
    the pages start..end joined by newlines and trimmed; any other range
    raises the 400 response that names the page count. *)
Theorem page_range_accepted_iff (pages : list string)
    (start_page end_page : option Z) :
  let n := Z.of_nat (length pages) in
  let s := Text.int_or start_page 1 in
  let e := Text.int_or end_page n in
  Project5Pdf.extract_pdf_text_range (Ok pages) start_page end_page =
  if decide (1 <= s /\ s <= e /\ e <= n)
  then Ok (Str.strip (Text.join Text.newline (page_span pages s e)))
  else Raise (InvalidPageRange n).
Proof.
  cbn zeta. unfold Project5Pdf.extract_pdf_text_range. cbn [mbind outcome_bind].
  set (n := Z.of_nat (length pages)).
  set (s := Text.int_or start_page 1).
  set (e := Text.int_or end_page n).
  case_decide as Hr.
  - assert (Hc : (s <? 1) || (e <? 1) || (e <? s) || (n <? e) = false).
    { rewrite !orb_false_iff, !Z.ltb_ge. lia. }
    rewrite Hc. rewrite load_pages_range by (subst n; lia). done.
  - assert (Hc : (s <? 1) || (e <? 1) || (e <? s) || (n <? e) = true).
    { rewrite !orb_true_iff, !Z.ltb_lt. lia. }
    by rewrite Hc.
Qed.

(** X3. A document without pages is rejected whatever the bounds are; a
    bound of 0 behaves as an absent bound; without bounds a document
    that has pages yields all its pages joined and trimmed; every text
    the function returns is already trimmed. *)
Theorem page_range_defaults (pages : list string) (bound : option Z) :
  (forall start_page end_page,
     Project5Pdf.extract_pdf_text_range (Ok []) start_page end_page =
       Raise (InvalidPageRange 0)) /\
  Project5Pdf.extract_pdf_text_range (Ok pages) (Some 0) bound =
    Project5Pdf.extract_pdf_text_range (Ok pages) None bound /\
  Project5Pdf.extract_pdf_text_range (Ok pages) bound (Some 0) =
    Project5Pdf.extract_pdf_text_range (Ok pages) bound None /\
  (pages <> [] ->
     Project5Pdf.extract_pdf_text_range (Ok pages) None None =
       Ok (Str.strip (Text.join Text.newline pages))) /\
  (forall doc start_page end_page t,
     Project5Pdf.extract_pdf_text_range doc start_page end_page = Ok t ->
     Str.strip t = t).
Proof.
  split; [|split; [done|split; [done|split]]].
  - intros start_page end_page. rewrite page_range_accepted_iff.
    cbn zeta. case_decide as Hr; [|done].
    simpl in Hr. lia.
  - intros Hne. rewrite page_range_accepted_iff. cbn zeta.
    assert (Hlen : (0 < length pages)%nat) by (destruct pages; [done | simpl; lia]).
    assert (Hint : Text.int_or None (Z.of_nat (length pages)) = Z.of_nat (length pages)) by done.
    rewrite Hint. cbn [Text.int_or]. rewrite decide_True by lia.
    unfold page_span. rewrite Z.sub_diag. cbn [Z.to_nat drop].
    rewrite Z.sub_0_r, Nat2Z.id, firstn_all. done.
  - intros [pages'|e'] start_page end_page t; [|done].
    rewrite page_range_accepted_iff. cbn zeta. case_decide; [|done].
    intros [= <-]. apply strip_idem.
Qed.

Lemma page_text_in_range (pages : list string) (page_num : Z) :
  1 <= page_num <= Z.of_nat (length pages) ->
  exists page,
    pages !! Z.to_nat (page_num - 1) = Some page /\
    Project4Pdf.extract_pdf_page_text (Ok pages) page_num =
      Ok (if Str.truthy (Str.strip page) then Str.strip page
          else Project4Pdf.no_text).
Proof.
  intros Hr.
  destruct (pages !! Z.to_nat (page_num - 1)) as [page|] eqn:Hp.
  2:{ apply lookup_ge_None in Hp. lia. }
  exists page. split; [done|].
  unfold Project4Pdf.extract_pdf_page_text. cbn [mbind outcome_bind].
  assert (Hc : (page_num <? 1) || (Z.of_nat (length pages) <? page_num) = false).
  { rewrite orb_false_iff, !Z.ltb_ge. lia. }
  rewrite Hc. unfold Project5Pdf.load_page. by rewrite Hp.
Qed.

Lemma page_text_out_of_range (pages : list string) (page_num : Z) :
  ~ (1 <= page_num <= Z.of_nat (length pages)) ->
  Project4Pdf.extract_pdf_page_text (Ok pages) page_num =
    Raise (PageOutOfRange (Z.of_nat (length pages))).
Proof.
  intros Hr. unfold Project4Pdf.extract_pdf_page_text. cbn [mbind outcome_bind].
  assert (Hc : (page_num <? 1) || (Z.of_nat (length pages) <? page_num) = true).
  { rewrite orb_true_iff, !Z.ltb_lt. lia. }
  by rewrite Hc.
Qed.

(** X4. [extract_pdf_page_text] succeeds exactly for page numbers from
    1 to the page count and raises the 400 response with the page count
    otherwise.  Its result is never the empty string: it is the trimmed
    text of the page, or the placeholder when that text is blank. *)
Theorem page_text_is_never_empty (pages : list string) (page_num : Z) :
  (is_ok (Project4Pdf.extract_pdf_page_text (Ok pages) page_num) = true <->
   1 <= page_num <= Z.of_nat (length pages)) /\
  (~ (1 <= page_num <= Z.of_nat (length pages)) ->
   Project4Pdf.extract_pdf_page_text (Ok pages) page_num =
     Raise (PageOutOfRange (Z.of_nat (length pages)))) /\
  (forall t,
     Project4Pdf.extract_pdf_page_text (Ok pages) page_num = Ok t ->
     t <> "" /\
     exists page,
       pages !! Z.to_nat (page_num - 1) = Some page /\
       ((Str.strip page = "" /\ t = Project4Pdf.no_text) \/
        (Str.strip page <> "" /\ t = Str.strip page))).
Proof.
  destruct (decide (1 <= page_num <= Z.of_nat (length pages))) as [Hr|Hr].
  - destruct (page_text_in_range pages page_num Hr) as (page & Hp & Heq).
    rewrite Heq. split; [done|]. split; [done|].
    intros t [= <-].
    destruct (Str.truthy (Str.strip page)) eqn:Ht.
    + apply truthy_spec in Ht. split; [done|]. exists page. by eauto.
    + split; [done|]. exists page. split; [done|]. left.
      split; [|done]. by destruct (Str.strip page).
  - rewrite (page_text_out_of_range pages page_num Hr).
    split; [by split|]. split; [done|]. done.
Qed.

(** X5. For a page number other than 0, the one-page range [p..p] of
    Project5 succeeds exactly when the page reader of Project4 does, and
    the reader returns the same text, with the placeholder standing in
    for an empty one. *)
Theorem single_page_range_agrees (pages : list string) (p : Z) :
  p <> 0 ->
  (is_ok (Project5Pdf.extract_pdf_text_range (Ok pages) (Some p) (Some p)) =
   is_ok (Project4Pdf.extract_pdf_page_text (Ok pages) p)) /\
  (forall t,
     Project5Pdf.extract_pdf_text_range (Ok pages) (Some p) (Some p) = Ok t ->
     Project4Pdf.extract_pdf_page_text (Ok pages) p =
       Ok (if Str.truthy t then t else Project4Pdf.no_text)).
Proof.
  intros Hp. rewrite page_range_accepted_iff. cbn zeta.
  assert (Hint : forall d, Text.int_or (Some p) d = p).
  { intros d. unfold Text.int_or.
    destruct (p =? 0) eqn:H0; [apply Z.eqb_eq in H0; lia | done]. }
  rewrite !Hint.
  destruct (decide (1 <= p <= Z.of_nat (length pages))) as [Hr|Hr].
  - destruct (page_text_in_range pages p Hr) as (page & Hpage & Heq).
    rewrite Heq, decide_True by lia. split; [done|].
    intros t [= <-]. unfold page_span.
    replace (Z.to_nat (p - (p - 1))) with 1%nat by lia.
    rewrite (drop_S _ _ _ Hpage). done.
  - rewrite (page_text_out_of_range pages p Hr), decide_False by lia.
    split; done.
Qed.

Lemma single_page_range_agrees_witness :
  Project4Pdf.extract_pdf_page_text (Ok ["  one "; "   "]) 2 =
    Ok Project4Pdf.no_text.
Proof.
  destruct (single_page_range_agrees ["  one "; "   "] 2) as [_ H]; [lia|].
  apply (H ""). vm_compute. reflexivity.
Defined.

Section MoreCompile.
Context {E : ReEngine}.

Lemma try_re_compile_cases (pattern : string) (v : Z) :
  match try_re_compile pattern v with
  | Ok p => re_compile pattern v = Ok p
  | Raise e =>
      (forall msg, e <> re_error msg) /\
      ((exists msg, re_compile pattern v = Raise (re_error msg) /\
                    e = InvalidExpression msg) \/
       re_compile pattern v = Raise e)
  end.
Proof.
  unfold try_re_compile. destruct (re_compile pattern v) as [p|e]; [done|].
  destruct e; try (split; [done | by right]).
  split; [done|]. left. by eexists.
Qed.

(** X6. [compile_pattern] returns a pattern exactly when every flag name
    is recognized and [re.compile] accepts the pattern under the union of
    the flags.  A failure is never a bare [re.error]: it is [InvalidFlag]
    for an unknown entry of the list, or the 400 response that wraps the
    [re.error] of [re.compile], or another exception of [re.compile]
    passed through as it is. *)
Theorem compile_pattern_outcomes (pattern : string)
    (flags : option (list string)) :
  let names := default [] flags in
  (forall p,
     Project5.compile_pattern pattern flags = Ok p <->
     Forall recognized names /\
     re_compile pattern (flag_union names) = Ok p) /\
  (forall e,
     Project5.compile_pattern pattern flags = Raise e ->
     (forall msg, e <> re_error msg) /\
     ((exists bad, bad ∈ names /\ ~ recognized bad /\ e = InvalidFlag bad) \/
      (Forall recognized names /\
       ((exists msg,
           re_compile pattern (flag_union names) = Raise (re_error msg) /\
           e = InvalidExpression msg) \/
        re_compile pattern (flag_union names) = Raise e)))).
Proof.
  cbn zeta. set (names := default [] flags).
  assert (Hflags : Project5.compile_pattern pattern flags =
                   (v ← Project5.flags_loop names 0; try_re_compile pattern v))
    by done.
  destruct (decide (Forall recognized names)) as [Hall|Hnot].
  - rewrite Hflags, (flags_loop_recognized names 0 Hall), Z.lor_0_l.
    cbn [mbind outcome_bind].
    pose proof (try_re_compile_cases pattern (flag_union names)) as Hc.
    destruct (try_re_compile pattern (flag_union names)) as [p|e].
    + split.
      * intros p'. split.
        -- intros [= <-]. done.
        -- intros [_ Hp]. congruence.
      * done.
    + destruct Hc as [Hne Hc]. split.
      * intros p. split; [done|]. intros [_ Hp].
        destruct Hc as [(msg & Hm & _) | Hm]; congruence.
      * intros e' [= <-]. split; [done|]. right. split; [done|]. exact Hc.
  - destruct (flags_loop_unknown names 0 Hnot) as (bad & Hin & Hbad & Heq).
    rewrite Hflags, Heq. cbn [mbind outcome_bind]. split.
    + intros p. split; [done|]. by intros [Hall _].
    + intros e [= <-]. split; [done|]. left. by exists bad.
Qed.

End MoreCompile.

Lemma compile_pattern_outcomes_witness :
  Project5.compile_pattern (E := ref_engine) "(" None =
    Raise (InvalidExpression "cannot parse the pattern") /\
  InvalidExpression "cannot parse the pattern" <> re_error "".
Proof.
  split; [vm_compute; reflexivity|].
  apply (proj2 (compile_pattern_outcomes (E := ref_engine) "(" None)
           (InvalidExpression "cannot parse the pattern")).
  vm_compute. reflexivity.
Defined.

Example incompatible_flags_escape :
  Project5.compile_pattern (E := ref_engine) "a" (Some ["ASCII"; "UNICODE"]) =
  Raise (ValueError "ASCII and UNICODE flags are incompatible").
Proof. vm_compute. reflexivity. Qed.

(** * Loading a configuration *)

Lemma nonblank_str_spec (x : json) :
  nonblank_str x = true <-> exists s, x = JStr s /\ Str.strip s <> "".
Proof.
  destruct x; simpl; try (split; [done | by intros (? & ? & _)]).
  rewrite truthy_spec. split.
  - intros H. by eexists.
  - by intros (? & [= <-] & H).
Qed.

Lemma with_default_keeps (key : string) (fields : gmap string json) :
  fields ⊆ with_default key fields.
Proof.
  unfold with_default. destruct (fields !! key) eqn:Hk; [done|].
  by apply insert_subseteq.
Qed.

Lemma with_default_dom (key : string) (fields : gmap string json) :
  dom (with_default key fields) = {[key]} ∪ dom fields.
Proof.
  unfold with_default. destruct (fields !! key) eqn:Hk.
  - symmetry. apply subseteq_union_1_L, singleton_subseteq_l, elem_of_dom.
    by eexists.
  - by rewrite dom_insert_L.
Qed.

Lemma with_default_fresh (key : string) (fields : gmap string json) :
  fields !! key = None -> with_default key fields !! key = Some (JArr []).
Proof. unfold with_default. intros ->. apply lookup_insert_eq. Qed.

(** X7. [load_regex_config] succeeds exactly for an existing regular
    file whose document is an object with non-blank string patterns under
    both keys.  The dictionary it returns extends the one in the file:
    every entry of the file is kept as it is, and the keys
    "question_flags" and "option_flags" are added with an empty list only
    where the file has none. *)
Theorem load_regex_config_success (cfg_path : ConfigFile) (data : json) :
  (Project5.load_regex_config cfg_path = Ok data <->
   path_exists cfg_path = true /\ path_is_file cfg_path = true /\
   exists fields q o,
     read_json cfg_path = Loaded (JObj fields) /\
     fields !! "question_regex" = Some (JStr q) /\ Str.strip q <> "" /\
     fields !! "option_regex" = Some (JStr o) /\ Str.strip o <> "" /\
     data = JObj (with_default "option_flags"
                    (with_default "question_flags" fields))) /\
  (forall fields,
     let fields' := with_default "option_flags"
                      (with_default "question_flags" fields) in
     fields ⊆ fields' /\
     dom fields' = {["question_flags"; "option_flags"]} ∪ dom fields /\
     (forall key, key = "question_flags" \/ key = "option_flags" ->
                  fields !! key = None -> fields' !! key = Some (JArr []))).
Proof.
  split.
  - unfold Project5.load_regex_config.
    destruct (path_exists cfg_path), (path_is_file cfg_path);
      try (split; [done | by intros (? & ? & _)]).
    cbn [negb orb].
    destruct (read_json cfg_path) as [exc|doc];
      [split; [done | by intros (_ & _ & ? & ? & ? & ? & _)]|].
    destruct doc as [| | | | |fields];
      try (split; [done | by intros (_ & _ & ? & ? & ? & ? & _)]).
    cbn [py_get mbind outcome_bind].
    destruct (nonblank_str (default JNull (fields !! "question_regex"))) eqn:Hq.
    2:{ split; [done|]. intros (_ & _ & f & q & o & [= <-] & Hfq & Hsq & _).
        rewrite Hfq in Hq. simpl in Hq. apply truthy_spec in Hsq. congruence. }
    destruct (nonblank_str (default JNull (fields !! "option_regex"))) eqn:Ho.
    2:{ split; [done|]. intros (_ & _ & f & q & o & [= <-] & _ & _ & Hfo & Hso & _).
        rewrite Hfo in Ho. simpl in Ho. apply truthy_spec in Hso. congruence. }
    cbn [negb py_setdefault mbind outcome_bind].
    apply nonblank_str_spec in Hq as (q & Hq & Hsq).
    apply nonblank_str_spec in Ho as (o & Ho & Hso).
    assert (Hfq : fields !! "question_regex" = Some (JStr q)).
    { destruct (fields !! "question_regex"); simpl in Hq; congruence. }
    assert (Hfo : fields !! "option_regex" = Some (JStr o)).
    { destruct (fields !! "option_regex"); simpl in Ho; congruence. }
    split.
    + intros [= <-]. split; [done|]. split; [done|].
      exists fields, q, o. done.
    + intros (_ & _ & f & q' & o' & [= <-] & _ & _ & _ & _ & ->). done.
  - intros fields. cbn zeta. split; [|split].
    + etrans; apply with_default_keeps.
    + rewrite !with_default_dom.
      by rewrite (assoc_L (∪)), (comm_L (∪) {["option_flags"]}).
    + intros key [-> | ->] Hnone.
      * apply (lookup_weaken _ _ _ _ (with_default_fresh _ _ Hnone)),
          with_default_keeps.
      * apply with_default_fresh.
        unfold with_default at 1.
        destruct (fields !! "question_flags"); [done|].
        by rewrite lookup_insert_ne.
Qed.

Section MoreSegmentation.
Context {E : ReEngine}.

Lemma option_fragments_part (o_pat : Pattern) (block : string) :
  is_Some (option_fragments o_pat block) ->
  Forall (fun om => groupdict om !! "option" <> Some None)
         (finditer o_pat block).
Proof.
  unfold option_fragments. intros H%fmap_is_Some%mapM_is_Some.
  eapply Forall_impl; [exact H|].
  intros om [t Ht] Hn. simpl in Ht. unfold extracted_text in Ht.
  by rewrite Hn in Ht.
Qed.

Lemma segment_some_part (q_pat o_pat : Pattern) (text : string) :
  is_Some (segment q_pat o_pat text) <-> groups_take_part q_pat o_pat text.
Proof.
  unfold segment, groups_take_part. rewrite mapM_is_Some. split.
  - intros H. eapply Forall_impl; [exact H|].
    intros m [b Hb]. simpl in Hb.
    apply text_block_question in Hb as [Hq Ho]. split.
    + intros Hn. unfold extracted_text in Hq. by rewrite Hn in Hq.
    + apply option_fragments_part. by eexists.
  - intros H. eapply Forall_impl; [exact H|].
    intros m [H1 H2]. by apply text_block_total.
Qed.

(** X8. [parse_questions_with_config] returns blocks exactly when both
    rules compile and every declared group takes part in every match, and
    the blocks are then those of [segment].  A failure is the compile
    failure of the outer rule, or that of the inner rule once the outer
    one has compiled, or the exception of [None.strip()] when some
    declared group is unset. *)
Theorem parse_outcomes (text : string) (cfg : Project5.Cfg) :
  (forall blocks,
     Project5.parse_questions_with_config text cfg = Ok blocks <->
     exists q_pat o_pat,
       Project5.compile_pattern (Project5.question_regex cfg)
         (Project5.question_flags cfg) = Ok q_pat /\
       Project5.compile_pattern (Project5.option_regex cfg)
         (Project5.option_flags cfg) = Ok o_pat /\
       groups_take_part q_pat o_pat text /\
       segment q_pat o_pat text = Some blocks) /\
  (forall e,
     Project5.parse_questions_with_config text cfg = Raise e ->
     Project5.compile_pattern (Project5.question_regex cfg)
       (Project5.question_flags cfg) = Raise e \/
     exists q_pat,
       Project5.compile_pattern (Project5.question_regex cfg)
         (Project5.question_flags cfg) = Ok q_pat /\
       (Project5.compile_pattern (Project5.option_regex cfg)
          (Project5.option_flags cfg) = Raise e \/
        exists o_pat,
          Project5.compile_pattern (Project5.option_regex cfg)
            (Project5.option_flags cfg) = Ok o_pat /\
          e = NoneType_strip /\
          ~ groups_take_part q_pat o_pat text)).
Proof.
  split.
  - intros blocks. split.
    + intros Hparse.
      destruct (parse_ok_inv text cfg blocks Hparse)
        as (q_pat & o_pat & Hq & Ho & Hseg).
      exists q_pat, o_pat. split; [done|]. split; [done|]. split; [|done].
      apply segment_some_part. by eexists.
    + intros (q_pat & o_pat & Hq & Ho & _ & Hseg).
      by rewrite (parse_refines text cfg q_pat o_pat Hq Ho), Hseg.
  - intros e Hparse.
    destruct (Project5.compile_pattern (Project5.question_regex cfg)
                (Project5.question_flags cfg)) as [q_pat|e1] eqn:Hq.
    2:{ left. unfold Project5.parse_questions_with_config in Hparse.
        rewrite Hq in Hparse. by injection Hparse as <-. }
    right. exists q_pat. split; [done|].
    destruct (Project5.compile_pattern (Project5.option_regex cfg)
                (Project5.option_flags cfg)) as [o_pat|e2] eqn:Ho.
    2:{ left. unfold Project5.parse_questions_with_config in Hparse.
        rewrite Hq in Hparse. cbn in Hparse. rewrite Ho in Hparse.
        by injection Hparse as <-. }
    right. exists o_pat. split; [done|].
    rewrite (parse_refines text cfg q_pat o_pat Hq Ho) in Hparse.
    destruct (segment q_pat o_pat text) as [blocks|] eqn:Hseg; [done|].
    injection Hparse as <-. split; [done|].
    intros Hpart%segment_some_part. rewrite Hseg in Hpart.
    by destruct Hpart.
Qed.

(** X9. In a result of [parse_questions_with_config] every question text
    is already trimmed, no block has more options than the inner rule has
    matches in its text, and a text without a match of the outer rule
    gives the empty list. *)
Theorem parsed_blocks_shape (text : string) (cfg : Project5.Cfg)
    (blocks : list Project5.QA) :
  Project5.parse_questions_with_config text cfg = Ok blocks ->
  exists q_pat o_pat,
    Project5.compile_pattern (Project5.question_regex cfg)
      (Project5.question_flags cfg) = Ok q_pat /\
    Project5.compile_pattern (Project5.option_regex cfg)
      (Project5.option_flags cfg) = Ok o_pat /\
    (re_scan q_pat text = [] -> blocks = []) /\
    Forall2 (fun m b =>
               Str.strip (Project5.question b) = Project5.question b /\
               (length (Project5.options b)
                  <= length (re_scan o_pat (group0 m)))%nat)
            (finditer q_pat text) blocks.
Proof.
  intros Hparse.
  destruct (parse_ok_inv text cfg blocks Hparse)
    as (q_pat & o_pat & Hq & Ho & Hseg).
  exists q_pat, o_pat. split; [done|]. split; [done|].
  unfold segment in Hseg. apply mapM_Some_1 in Hseg. split.
  - intros Hnone. unfold finditer in Hseg. rewrite Hnone in Hseg.
    by inversion Hseg.
  - eapply Forall2_impl; [exact Hseg|].
    intros m b Hb. cbn beta in Hb.
    apply text_block_question in Hb as [Hqt Hopts]. split.
    + by eapply extracted_text_trimmed.
    + unfold option_fragments in Hopts.
      apply fmap_Some in Hopts as (texts & Htexts & ->).
      apply length_mapM in Htexts. rewrite finditer_length in Htexts.
      rewrite Htexts. apply filter_length_le.
Qed.

End MoreSegmentation.

Lemma parsed_blocks_shape_witness :
  exists q_pat o_pat,
    Project5.compile_pattern (E := ref_engine)
      (Project5.question_regex quiz_cfg) (Project5.question_flags quiz_cfg)
      = Ok q_pat /\
    Project5.compile_pattern (E := ref_engine)
      (Project5.option_regex quiz_cfg) (Project5.option_flags quiz_cfg)
      = Ok o_pat.
Proof.
  destruct (parsed_blocks_shape (E := ref_engine) quiz_text quiz_cfg
              [Project5.MkQA "What is 2+2? (A) 3 (B) 4" ["3"; "4"];
               Project5.MkQA "Capital of France? (A) Paris" ["Paris"]])
    as (q_pat & o_pat & Hq & Ho & _).
  - vm_compute. reflexivity.
  - exists q_pat, o_pat. split; [exact Hq | exact Ho].
Defined.

(** * The loader of Project4 against [compile_pattern] *)

Section Project4Loader.
Context {E : ReEngine}.

(** X10. For a readable configuration whose pattern is a non-blank
    string, [compile_regex_from_config] of Project4 compiles as
    [compile_pattern] of Project5 does: without flags when the key is
    absent or its value is falsy (null, false, 0, the empty string, list
    or object), with the names when the value is a list of strings; a
    truthy value that is not a list of strings raises the 400 response
    about the flags. *)
Theorem project4_loader_compiles_alike (config_path : ConfigFile)
    (fields : gmap string json) (pat : string) :
  path_exists config_path = true ->
  path_is_file config_path = true ->
  read_json config_path = Loaded (JObj fields) ->
  fields !! "regex" = Some (JStr pat) ->
  Str.strip pat <> "" ->
  (fields !! "flags" = None ->
     Project4.compile_regex_from_config config_path =
       Project5.compile_pattern pat None) /\
  (forall j, fields !! "flags" = Some j -> json_truthy j = false ->
     Project4.compile_regex_from_config config_path =
       Project5.compile_pattern pat None) /\
  (forall items names,
     fields !! "flags" = Some (JArr items) -> str_items items = Some names ->
     Project4.compile_regex_from_config config_path =
       Project5.compile_pattern pat (Some names)) /\
  (forall j, fields !! "flags" = Some j -> json_truthy j = true ->
     (forall items names, j = JArr items -> str_items items <> Some names) ->
     Project4.compile_regex_from_config config_path = Raise FlagsNotAList).
Proof.
  intros Hex Hfile Hread Hre Hpat.
  assert (Hhead : Project4.compile_regex_from_config config_path =
    (flags_val ←
       (let flags := default (JArr []) (fields !! "flags") in
        if json_truthy flags then
          match flags with
          | JArr items =>
              match str_items items with
              | Some names => Project4.flags_loop names 0
              | None => Raise FlagsNotAList
              end
          | _ => Raise FlagsNotAList
          end
        else Ok 0);
     try_re_compile pat flags_val)).
  { unfold Project4.compile_regex_from_config.
    rewrite Hex, Hfile, Hread. cbn [negb orb py_get mbind outcome_bind].
    rewrite Hre. cbn [default from_option id].
    apply truthy_spec in Hpat. rewrite Hpat. done. }
  rewrite Hhead. clear Hhead. split; [|split; [|split]].
  - intros ->. done.
  - intros j -> Hj. cbn [default from_option id]. by rewrite Hj.
  - intros items names -> Hitems. cbn [default from_option id].
    unfold Project5.compile_pattern. cbn [default from_option id].
    rewrite <- flags_loop_agree.
    destruct items as [|i items].
    + simpl in Hitems. by injection Hitems as <-.
    + cbn [json_truthy]. by rewrite Hitems.
  - intros j -> Hj Hnot. cbn [default from_option id]. rewrite Hj.
    destruct j as [| | | |items|]; try done.
    destruct (str_items items) as [names|] eqn:Hitems; [|done].
    by destruct (Hnot items names eq_refl).
Qed.

End Project4Loader.

Lemma project4_loader_compiles_alike_witness :
  Project4.compile_regex_from_config (E := ref_engine) numeric_flags_config =
    Project5.compile_pattern (E := ref_engine) "q\d" None.
Proof.
  destruct (project4_loader_compiles_alike (E := ref_engine)
              numeric_flags_config
              (<["regex" := JStr "q\d"]> (<["flags" := JNum 0]> ∅)) "q\d")
    as (_ & H & _).
  - reflexivity.
  - reflexivity.
  - reflexivity.
  - vm_compute. reflexivity.
  - vm_compute. discriminate.
  - apply (H (JNum 0)); vm_compute; reflexivity.
Defined.

Section MoreValidation.
Import Project8.









(** X13. The row the repository builds stores the subject name trimmed
    and the question text as given; the chapter name is stored either as
    NULL, exactly when it is absent or blank, or as a non-empty trimmed
    string. *)
Theorem stored_names_are_normalised (q : QuestionIn) :
  let r := row (construct q) in
  r_subject_name r = Str.strip (subject_name (base_in q)) /\
  Str.strip (r_subject_name r) = r_subject_name r /\
  r_question_text r = question_text (base_in q) /\
  (forall c, r_chapter_name r = Some c ->
             c <> "" /\ Str.strip c = c /\
             c = Str.strip (default "" (chapter_name (base_in q)))) /\
  (r_chapter_name r = None <->
   Str.strip (default "" (chapter_name (base_in q))) = "").
Proof.
  assert (Hc : forall v,
    (forall c, strip_or_none v = Some c ->
               c <> "" /\ Str.strip c = c /\ c = Str.strip (default "" v)) /\
    (strip_or_none v = None <-> Str.strip (default "" v) = "")).
  { intros v. unfold strip_or_none.
    destruct (Str.truthy (Str.strip (default "" v))) eqn:Ht.
    - apply truthy_spec in Ht. split.
      + intros c [= <-]. split; [done|]. split; [apply strip_idem | done].
      + split; [done|]. intros H. by rewrite H in Ht.
    - split; [done|]. split; [|done]. intros _.
      by destruct (Str.strip (default "" v)). }
  destruct q as [b a | b lt lf c | b opts]; cbn;
    (split; [done|]); (split; [apply strip_idem|]); (split; [done|]);
    apply Hc.
Qed.

End MoreValidation.


Section MoreStorage.
Import Project8.







End MoreStorage.



Section Ingest.
Import Project5Ingest.

Lemma insert_rows_lookup (objs : list Question) (k j : nat)
    (view : gmap nat Question) :
  insert_rows k objs view !! j =
    if decide (k <= j < k + length objs)%nat then objs !! (j - k)%nat
    else view !! j.
Proof.
  revert k view. induction objs as [|q objs IH]; intros k view; simpl.
  - rewrite decide_False by lia. done.
  - rewrite IH. destruct (decide (j = k)) as [->|Hne].
    + rewrite decide_False, decide_True by lia.
      rewrite lookup_insert_eq. by rewrite Nat.sub_diag.
    + rewrite lookup_insert_ne by done.
      destruct (decide (S k <= j < S k + length objs)%nat).
      * rewrite decide_True by lia.
        replace (j - k)%nat with (S (j - S k)) by lia. done.
      * rewrite decide_False by lia. done.
Qed.

Lemma add_all_new (f : Project5.QA -> Question) (items : list Project5.QA)
    (db : Session) :
  foldl (fun s it => db_add (f it) s) db items =
  {| committed := committed db; txn := txn db;
     new := new db ++ map f items; sequence := sequence db |}.
Proof.
  revert db. induction items as [|it items IH]; intros db; simpl.
  - rewrite app_nil_r. by destruct db.
  - rewrite IH. simpl. by rewrite <- app_assoc.
Qed.

Lemma flush_all_rows (refuses : engine) (objs : list Question) (s : Session) :
  match flush_all refuses objs s with
  | (Ok _, s') =>
      committed s' = committed s /\ new s' = [] /\
      default (committed s') (txn s') =
        insert_rows (sequence s) objs (default (committed s) (txn s)) /\
      (forall i q, objs !! i = Some q ->
                   refuses (INSERT (sequence s + i) q) = None)
  | (Raise e, s') =>
      committed s' = committed s /\ exists msg, e = StorageError msg
  end.
Proof.
  revert s. induction objs as [|q objs IH]; intros s; cbn [flush_all].
  - cbn. repeat split; try done. 
  - destruct (refuses (INSERT (sequence s) q)) as [msg|] eqn:Hq.
    + cbn. split; [done|]. by exists msg.
    + specialize (IH {| committed := committed s;
                        txn := Some (<[sequence s := q]>
                                       (default (committed s) (txn s)));
                        new := new s; sequence := S (sequence s) |}).
      destruct (flush_all refuses objs _) as [[u|e] s']; cbn in IH.
      * destruct IH as (Hc & Hn & Hv & Hacc).
        split; [done|]. split; [done|]. split; [done|].
        intros [|i] q' Hi; simpl in Hi.
        -- injection Hi as <-. by rewrite Nat.add_0_r.
        -- replace (sequence s + S i)%nat with (S (sequence s) + i)%nat by lia.
           by apply Hacc.
      * done.
Qed.

Lemma flush_all_accepts (refuses : engine) (objs : list Question) (s : Session) :
  (forall st, refuses st = None) ->
  is_ok (fst (flush_all refuses objs s)) = true.
Proof.
  intros Hacc. revert s. induction objs as [|q objs IH]; intros s; [done|].
  cbn [flush_all]. rewrite Hacc. apply IH.
Qed.

(** X16. The storing step of [ingest_pdf_questions] on a fresh session
    is all or nothing.  When it fails the exception is the 500 response
    with the engine's message and the committed table is unchanged; when
    it succeeds every INSERT and the COMMIT were accepted, both counts of
    the response are the number of parsed items, the rows stand in the
    committed table under consecutive identities in the order of the
    items, and the other identities are as before.  An engine that
    accepts every statement makes it succeed. *)
Theorem batch_is_stored_whole (refuses : engine) (subject : string)
    (chapter : option string) (pdf_path : string)
    (page_from page_to : option Z) (items : list Project5.QA) (db : Session) :
  txn db = None -> new db = [] ->
  let rows :=
    map (question_of subject chapter pdf_path page_from page_to) items in
  let r := fst (store_questions refuses subject chapter pdf_path
                  page_from page_to items db) in
  let db' := snd (store_questions refuses subject chapter pdf_path
                    page_from page_to items db) in
  txn db' = None /\ new db' = [] /\
  (forall e, r = Raise e ->
     committed db' = committed db /\ exists msg, e = InsertFailed msg) /\
  (forall resp, r = Ok resp ->
     questions_found resp = length items /\
     inserted resp = length items /\
     refuses COMMIT = None /\
     (forall i q, rows !! i = Some q ->
        refuses (INSERT (sequence db + i) q) = None /\
        committed db' !! (sequence db + i)%nat = Some q) /\
     (forall j, (j < sequence db \/ sequence db + length items <= j)%nat ->
        committed db' !! j = committed db !! j)) /\
  ((forall st, refuses st = None) -> is_ok r = true).
Proof.
  destruct db as [c t n s]. simpl. intros -> ->.
  unfold store_questions. rewrite add_all_new. cbn [new app].
  set (rows := map (question_of subject chapter pdf_path page_from page_to)
                   items).
  unfold db_commit. cbn [new].
  pose proof (flush_all_rows refuses rows
                {| committed := c; txn := None; new := rows;
                   sequence := s |}) as Hflush.
  pose proof (flush_all_accepts refuses rows
                {| committed := c; txn := None; new := rows;
                   sequence := s |}) as Hacc.
  destruct (flush_all refuses rows _) as [[u|e] s']; cbn in Hflush, Hacc.
  - destruct Hflush as (Hc & Hn & Hv & Hins).
    destruct (refuses COMMIT) as [msg|] eqn:Hcommit.
    + cbn. split; [done|]. split; [done|]. split; [|split; [done|]].
      * intros e [= <-]. split; [done|]. by exists msg.
      * intros Hall. by rewrite Hall in Hcommit.
    + cbn. split; [done|]. split; [done|]. split; [done|]. split; [|done].
      intros resp [= <-]. cbn. split; [done|]. split; [done|].
      split; [done|]. rewrite Hv. split.
      * intros i q Hi. split; [by apply Hins|].
        rewrite insert_rows_lookup.
        pose proof (lookup_lt_Some _ _ _ Hi).
        rewrite decide_True by lia.
        by replace (s + i - s)%nat with i by lia.
      * intros j Hj. rewrite insert_rows_lookup.
        unfold rows. rewrite length_map.
        by rewrite decide_False by lia.
  - destruct Hflush as [Hc [msg ->]]. cbn.
    split; [done|]. split; [done|]. split; [|split; [done|]].
    + intros e [= <-]. split; [done|]. by exists msg.
    + intros Hall. by specialize (Hacc Hall).
Qed.

End Ingest.

Lemma batch_is_stored_whole_witness :
  Project5Ingest.committed
    (snd (Project5Ingest.store_questions refuses_blank " Maths " None
            "book.pdf" None None
            [Project5.MkQA "What is 2+2?" ["3"; "4"]; Project5.MkQA "" []]
            empty_ingest_session))
  = Project5Ingest.committed empty_ingest_session.
Proof.
  pose proof (batch_is_stored_whole refuses_blank " Maths " None "book.pdf"
                None None
                [Project5.MkQA "What is 2+2?" ["3"; "4"]; Project5.MkQA "" []]
                empty_ingest_session eq_refl eq_refl) as H.
  cbv zeta in H. destruct H as (_ & _ & H & _).
  destruct (H (InsertFailed "empty question") eq_refl) as [Hc _].
  exact Hc.
Defined.

(** * The links of a feed *)

Lemma filter_twice {A} (p q : A -> bool) (l : list A) :
  List.filter p (List.filter q l) = List.filter (fun x => q x && p x) l.
Proof.
  induction l as [|x l IH]; simpl; [done|].
  destruct (q x); simpl; [|done]. destruct (p x); by rewrite IH.
Qed.

Lemma filter_same {A} (p q : A -> bool) (l : list A) :
  (forall x, p x = q x) -> List.filter p l = List.filter q l.
Proof.
  intros H. induction l as [|x l IH]; simpl; [done|]. by rewrite H, IH.
Qed.

Lemma first_occurrences_elem (l : list string) (u : string) :
  u ∈ first_occurrences l <-> u ∈ l.
Proof.
  induction l as [|x l IH]; simpl; [done|].
  rewrite !elem_of_cons, list_elem_of_In, filter_In, <- list_elem_of_In, IH.
  destruct (String.eqb_spec x u) as [->|Hne]; simpl.
  - split; [intros [?|[? ?]] | intros _]; by eauto.
  - split; [intros [?|[? _]]; eauto | intros [?|?]; eauto].
Qed.

Lemma filter_keeps_NoDup {A} (f : A -> bool) (l : list A) :
  NoDup l -> NoDup (List.filter f l).
Proof.
  induction 1 as [|x l Hx _ IH]; simpl; [constructor|].
  destruct (f x); [|done]. constructor; [|done].
  rewrite list_elem_of_In, filter_In, <- list_elem_of_In. by intros [? _].
Qed.

Lemma first_occurrences_NoDup (l : list string) : NoDup (first_occurrences l).
Proof.
  induction l as [|x l IH]; simpl; constructor.
  - rewrite list_elem_of_In, filter_In. intros [_ H].
    by rewrite String.eqb_refl in H.
  - by apply filter_keeps_NoDup.
Qed.

Lemma link_candidates_clean (texts : list (option string)) :
  Forall (fun u => u <> "" /\ Str.strip u = u) (link_candidates texts).
Proof.
  unfold link_candidates. apply Forall_forall. intros u Hu.
  apply list_elem_of_omap in Hu as (el & _ & Hel).
  destruct el as [t|]; [|done].
  destruct (Str.truthy t && Str.truthy (Str.strip t)) eqn:Ht; [|done].
  injection Hel as <-. apply andb_true_iff in Ht as [_ Ht].
  split; [by apply truthy_spec | apply strip_idem].
Qed.

Lemma links_loop_spec (texts : list (option string)) (links : list string)
    (seen : gset string) :
  (forall u, u ∈ seen <-> u ∈ links) ->
  Project7.links_loop texts links seen =
  (links ++ List.filter (not_in links)
              (first_occurrences (link_candidates texts)))%list.
Proof.
  revert links seen. induction texts as [|el texts IH]; intros links seen Hseen.
  - simpl. by rewrite app_nil_r.
  - cbn [Project7.links_loop link_candidates omap list_omap].
    fold (link_candidates texts).
    destruct el as [t|]; [|by apply IH].
    destruct (Str.truthy t) eqn:Ht; [|by apply IH].
    cbn [andb].
    destruct (Str.truthy (Str.strip t)) eqn:Hs; [|by apply IH].
    cbn [andb first_occurrences List.filter].
    destruct (bool_decide (Str.strip t ∈ seen)) eqn:Hin; cbn [negb].
    + apply bool_decide_eq_true in Hin. apply Hseen in Hin.
      unfold not_in at 1. rewrite bool_decide_eq_true_2 by done. cbn [negb].
      rewrite (IH links seen Hseen), filter_twice. f_equal.
      apply filter_same. intros x. unfold not_in.
      destruct (String.eqb_spec (Str.strip t) x) as [<-|Hne]; [|done].
      by rewrite bool_decide_eq_true_2.
    + apply bool_decide_eq_false in Hin.
      assert (Hnot : Str.strip t ∉ links) by (by rewrite <- Hseen).
      unfold not_in at 1. rewrite bool_decide_eq_false_2 by done. cbn [negb].
      rewrite (IH (links ++ [Str.strip t])%list ({[Str.strip t]} ∪ seen)).
      2:{ intros u. rewrite elem_of_union, elem_of_singleton, elem_of_app,
            list_elem_of_singleton, Hseen. tauto. }
      rewrite <- app_assoc. cbn [app]. do 2 f_equal.
      rewrite filter_twice. apply filter_same. intros x. unfold not_in.
      destruct (String.eqb_spec (Str.strip t) x) as [<-|Hne]; cbn [negb andb].
      * rewrite bool_decide_eq_true_2; [done|].
        apply elem_of_app. right. by left.
      * destruct (decide (x ∈ links)) as [Hx|Hx].
        -- rewrite !bool_decide_eq_true_2; [done|done|].
           apply elem_of_app. by left.
        -- rewrite !bool_decide_eq_false_2; [done|done|].
           rewrite elem_of_app, list_elem_of_singleton. intros [?|?]; congruence.
Qed.

Lemma filter_not_in_nil (l : list string) : List.filter (not_in []) l = l.
Proof.
  induction l as [|x l IH]; [done|]. cbn [List.filter].
  unfold not_in at 1. rewrite bool_decide_eq_false_2 by apply not_elem_of_nil.
  cbn [negb]. by rewrite IH.
Qed.

(** X17. The links [parse_rss_links] returns are pairwise different,
    non-empty and trimmed.  A blank document or one the XML reader
    rejects gives no link; otherwise the links are the trimmed non-empty
    texts of the link elements, each kept at its first place. *)
Theorem rss_links_are_unique
    (item_link_texts : string -> option (list (option string)))
    (xml_text : string) :
  let links := Project7.parse_rss_links item_link_texts xml_text in
  NoDup links /\
  Forall (fun u => u <> "" /\ Str.strip u = u) links /\
  (Str.strip xml_text = "" -> links = []) /\
  (item_link_texts xml_text = None -> links = []) /\
  (forall texts,
     Str.strip xml_text <> "" -> item_link_texts xml_text = Some texts ->
     links = first_occurrences (link_candidates texts) /\
     (forall u, u ∈ links <-> u ∈ link_candidates texts)).
Proof.
  cbn zeta. unfold Project7.parse_rss_links.
  destruct (Str.truthy (Str.strip xml_text)) eqn:Hx; cbn [negb].
  2:{ split; [constructor|]. split; [constructor|]. split; [done|].
      split; [done|]. intros texts Hne. apply truthy_spec in Hne. congruence. }
  destruct (item_link_texts xml_text) as [texts|].
  2:{ split; [constructor|]. split; [constructor|]. split; [done|].
      split; [done|]. intros texts' _ Heq. discriminate Heq. }
  rewrite links_loop_spec.
  2:{ intros u. split; [by intros ?%not_elem_of_empty | by intros ?%not_elem_of_nil]. }
  cbn [app]. rewrite filter_not_in_nil.
  split; [apply first_occurrences_NoDup|]. split; [|split; [|split]].
  - apply Forall_forall. intros u Hu.
    apply (proj1 (first_occurrences_elem _ _)) in Hu.
    exact (proj1 (Forall_forall _ _) (link_candidates_clean texts) u Hu).
  - intros H. apply truthy_spec in Hx. by destruct Hx.
  - done.
  - intros texts' _ [= <-]. split; [done|]. apply first_occurrences_elem.
Qed.

Example rss_links_keep_first_places :
  Project7.parse_rss_links
    (fun _ => Some [Some " a "; None; Some "b"; Some "a"; Some "  "; Some "c"])
    "<rss/>" = ["a"; "b"; "c"].
Proof. vm_compute. reflexivity. Qed.
